(** * Lightning webstore: configuration resolver and LND REST client

    A shallow embedding of [polar_detect.py] and [lnd_client.py].

    Python values that [json.load] can produce are an inductive type
    [json]; Python exceptions are values of [exn] and a computation that
    may raise lives in the error monad [result]. Code that touches the
    file system or the network additionally records what it touched, in
    the writer monad [io].

    Scope of the model:
    - text is ASCII: [upper] and [lower] change the 26 ASCII letters
      only, as [str.upper] and [str.lower] do on ASCII text;
    - JSON numbers are integers (a fraction or an exponent makes a
      Python float, which is not modelled). The interpreter's default
      limit of 4300 digits on the conversion between integers and text
      applies: [int] refuses a longer text, and a [JInt] is taken to be
      within the limit, since [json.load] raises on a longer literal;
    - paths follow [posixpath]. *)

From Stdlib Require Import String Ascii List ZArith NArith Lia Bool.
From Stdlib Require Import DecimalString Sorted Permutation.
Import ListNotations.

Open Scope string_scope.
Open Scope Z_scope.

(** ** Python values *)

Module Py.

(** A value produced by [json.load]. A [JDict] keeps its items in
    insertion order, as a Python dict does (iteration and [repr] depend
    on it); lookups take the first binding of a key. *)
#[warnings="-register-all"]
Inductive json : Type :=
| JNull
| JBool (b : bool)
| JInt (z : Z)
| JStr (s : string)
| JList (l : list json)
| JDict (d : list (string * json)).

(** The part of a [requests.Response] the client looks at. [json_body]
    is what [resp.json()] yields: the parsed [text], or nothing when
    the text is not JSON. *)
Record response : Type := mkResponse {
  status_code : Z;
  reason : string;
  resp_url : string;
  text : string;
  json_body : option json
}.

(** Exceptions, by class. [RequestException] stands for the transport
    failures of the [requests] library. *)
Inductive exn : Type :=
| AttributeError
| TypeError
| ValueError (msg : string)
| UnicodeDecodeError
| RecursionError
| JSONDecodeError
| OSError
| FileNotFoundError
| PermissionError
| IsADirectoryError
| NotADirectoryError
| ConnectionError (msg : string)
| HTTPError (msg : string) (resp : response)
| RequestException.

(** [isinstance(e, OSError)]; [IOError] is the same class, and the
    exceptions of [requests] derive from it. *)
Definition is_OSError (e : exn) : bool :=
  match e with
  | OSError | FileNotFoundError | PermissionError | IsADirectoryError
  | NotADirectoryError | ConnectionError _ | HTTPError _ _
  | RequestException => true
  | _ => false
  end.

Definition is_JSONDecodeError (e : exn) : bool :=
  match e with JSONDecodeError => true | _ => false end.

Definition is_FileNotFoundError (e : exn) : bool :=
  match e with FileNotFoundError => true | _ => false end.

(** *** The error monad *)

Inductive result (A : Type) : Type :=
| Return (a : A)
| Raise (e : exn).
Arguments Return {A} a.
Arguments Raise {A} e.

Definition bind {A B : Type} (m : result A) (f : A -> result B) : result B :=
  match m with
  | Return a => f a
  | Raise e => Raise e
  end.

Declare Scope py_scope.
Delimit Scope py_scope with py.
Notation "x <- m ;; k" := (bind m (fun x => k))
  (at level 61, m at next level, right associativity) : py_scope.
Notation "' pat <- m ;; k" := (bind m (fun x => match x with pat => k end))
  (at level 61, pat pattern, m at next level, right associativity) : py_scope.
Open Scope py_scope.

Fixpoint mapM {A B : Type} (f : A -> result B) (xs : list A)
  : result (list B) :=
  match xs with
  | [] => Return []
  | x :: xs' => y <- f x ;; ys <- mapM f xs' ;; Return (y :: ys)
  end.

(** *** Strings *)

Definition ascii_upper (c : ascii) : ascii :=
  let n := N_of_ascii c in
  if ((97 <=? n) && (n <=? 122))%N then ascii_of_N (n - 32) else c.

Definition ascii_lower (c : ascii) : ascii :=
  let n := N_of_ascii c in
  if ((65 <=? n) && (n <=? 90))%N then ascii_of_N (n + 32) else c.

Fixpoint map_string (f : ascii -> ascii) (s : string) : string :=
  match s with
  | EmptyString => EmptyString
  | String c s' => String (f c) (map_string f s')
  end.

(** [s.upper()] and [s.lower()]. *)
Definition upper : string -> string := map_string ascii_upper.
Definition lower : string -> string := map_string ascii_lower.

Fixpoint string_rev_onto (acc s : string) : string :=
  match s with
  | EmptyString => acc
  | String c s' => string_rev_onto (String c acc) s'
  end.

Definition string_rev : string -> string := string_rev_onto EmptyString.

(** [s.startswith(t)] and [s.endswith(t)]. *)
Fixpoint startswith (s t : string) {struct t} : bool :=
  match t with
  | EmptyString => true
  | String b t' =>
      match s with
      | EmptyString => false
      | String a s' => Ascii.eqb a b && startswith s' t'
      end
  end.

Definition endswith (s t : string) : bool :=
  startswith (string_rev s) (string_rev t).

Fixpoint ldrop (p : ascii -> bool) (s : string) : string :=
  match s with
  | EmptyString => EmptyString
  | String c s' => if p c then ldrop p s' else s
  end.

Definition rdrop (p : ascii -> bool) (s : string) : string :=
  string_rev (ldrop p (string_rev s)).

(** The whitespace that [int()] skips around an ASCII text: tab, line
    feed, vertical tab, form feed, carriage return and space. *)
Definition is_space (c : ascii) : bool :=
  let n := N_of_ascii c in
  (((9 <=? n) && (n <=? 13)) || (n =? 32))%N.

Definition is_digit (c : ascii) : bool :=
  let n := N_of_ascii c in ((48 <=? n) && (n <=? 57))%N.

Definition digit_val (c : ascii) : Z := Z.of_N (N_of_ascii c) - 48.

(** [str(z)] for an [int]. *)
Definition str_of_int (z : Z) : string :=
  NilZero.string_of_int (Z.to_int z).

(** The digits of an integer literal as [int()] reads them: decimal
    digits, single underscores allowed between two digits. [seen] says
    that the previous character was a digit. *)
Fixpoint int_digits (acc : Z) (seen : bool) (s : string) : option Z :=
  match s with
  | EmptyString => if seen then Some acc else None
  | String c s' =>
      if is_digit c then int_digits (10 * acc + digit_val c) true s'
      else if (Ascii.eqb c "_" && seen)%bool then
        match s' with
        | EmptyString => None
        | String c' _ => if is_digit c' then int_digits acc false s' else None
        end
      else None
  end.

(** The text read as an integer: surrounding whitespace is dropped,
    then an optional sign, then the digits. *)
Definition int_of_str (s : string) : option Z :=
  match rdrop is_space (ldrop is_space s) with
  | String "-" s' => option_map Z.opp (int_digits 0 false s')
  | String "+" s' => int_digits 0 false s'
  | s' => int_digits 0 false s'
  end.

(** The number of digit characters of a text, and the most that
    [int()] converts. *)
Fixpoint count_digits (s : string) : N :=
  match s with
  | EmptyString => 0%N
  | String c s' => ((if is_digit c then 1 else 0) + count_digits s')%N
  end.

Definition max_str_digits : N := 4300.

Definition hex_digit (n : N) : ascii :=
  if (n <? 10)%N then ascii_of_N (48 + n) else ascii_of_N (87 + n).

(** Two lower-case hexadecimal digits. *)
Definition hex2 (n : N) : string :=
  String (hex_digit (n / 16)) (String (hex_digit (n mod 16)) EmptyString).

Fixpoint contains_char (c : ascii) (s : string) : bool :=
  match s with
  | EmptyString => false
  | String c' s' => Ascii.eqb c c' || contains_char c s'
  end.

Fixpoint concat_map_string (f : ascii -> string) (s : string) : string :=
  match s with
  | EmptyString => EmptyString
  | String c s' => f c ++ concat_map_string f s'
  end.

Definition squote : ascii := ascii_of_N 39.
Definition dquote : ascii := ascii_of_N 34.
Definition backslash : ascii := ascii_of_N 92.

Definition repr_char (quote c : ascii) : string :=
  let n := N_of_ascii c in
  if (Ascii.eqb c quote || Ascii.eqb c backslash)%bool
  then String backslash (String c "")
  else if (n =? 9)%N then String backslash "t"
  else if (n =? 10)%N then String backslash "n"
  else if (n =? 13)%N then String backslash "r"
  else if ((n <? 32) || (127 <=? n))%N then String backslash ("x" ++ hex2 n)
  else String c "".

(** [repr(s)] for a [str]: single quotes, unless the text has a single
    quote and no double quote. *)
Definition repr_str (s : string) : string :=
  let quote : ascii :=
    if (contains_char squote s && negb (contains_char dquote s))%bool
    then dquote else squote in
  String quote (concat_map_string (repr_char quote) s ++ String quote "").

Fixpoint join_with (sep : string) (l : list string) : string :=
  match l with
  | [] => ""
  | [x] => x
  | x :: l' => x ++ sep ++ join_with sep l'
  end.

(** [repr(v)]. *)
Fixpoint repr (v : json) : string :=
  match v with
  | JNull => "None"
  | JBool true => "True"
  | JBool false => "False"
  | JInt z => str_of_int z
  | JStr s => repr_str s
  | JList l => "[" ++ join_with ", " (map repr l) ++ "]"
  | JDict d =>
      "{" ++ join_with ", "
               (map (fun kv => repr_str (fst kv) ++ ": " ++ repr (snd kv)) d)
          ++ "}"
  end.

(** [str(v)], which is what an f-string field [{v}] formats to. *)
Definition str (v : json) : string :=
  match v with
  | JStr s => s
  | _ => repr v
  end.

(** *** Builtins on values *)

(** [bool(v)]: the truth value tested by [if v], [not v] and [v or d]. *)
Definition truthy (v : json) : bool :=
  match v with
  | JNull => false
  | JBool b => b
  | JInt z => negb (z =? 0)
  | JStr s => negb (String.eqb s "")
  | JList l => match l with [] => false | _ => true end
  | JDict d => match d with [] => false | _ => true end
  end.

Fixpoint assoc (k : string) (d : list (string * json)) : option json :=
  match d with
  | [] => None
  | (k', v) :: d' => if String.eqb k k' then Some v else assoc k d'
  end.

(** [v.get(k, default)]: only a dict has the method. *)
Definition get (v : json) (k : string) (default : json) : result json :=
  match v with
  | JDict d =>
      Return (match assoc k d with Some x => x | None => default end)
  | _ => Raise AttributeError
  end.

(** [v.upper()] and [v.lower()]: only a str has the methods. *)
Definition upper_of (v : json) : result string :=
  match v with
  | JStr s => Return (upper s)
  | _ => Raise AttributeError
  end.

Definition lower_of (v : json) : result string :=
  match v with
  | JStr s => Return (lower s)
  | _ => Raise AttributeError
  end.

Fixpoint chars (s : string) : list json :=
  match s with
  | EmptyString => []
  | String c s' => JStr (String c "") :: chars s'
  end.

(** [list(v)], the items a [for] loop or [sorted] goes through: the
    elements of a list, the keys of a dict, the characters of a str. *)
Definition iter (v : json) : result (list json) :=
  match v with
  | JList l => Return l
  | JDict d => Return (map (fun kv => JStr (fst kv)) d)
  | JStr s => Return (chars s)
  | _ => Raise TypeError
  end.

(** [int(v)]. A text is checked first (the message shows at most 200
    characters of its [repr]); a valid text with more digits than the
    limit is refused. *)
Definition int (v : json) : result Z :=
  match v with
  | JInt z => Return z
  | JBool b => Return (if b then 1 else 0)
  | JStr s =>
      match int_of_str s with
      | Some z =>
          if (max_str_digits <? count_digits s)%N then
            Raise (ValueError
                     ("Exceeds the limit (4300 digits) for integer string "
                      ++ "conversion: value has "
                      ++ str_of_int (Z.of_N (count_digits s))
                      ++ " digits; use sys.set_int_max_str_digits() "
                      ++ "to increase the limit"))
          else Return z
      | None =>
          Raise (ValueError
                   ("invalid literal for int() with base 10: "
                    ++ substring 0 200 (repr_str s)))
      end
  | _ => Raise TypeError
  end.

(** [v == s] for a str [s]. *)
Definition eq_str (v : json) (s : string) : bool :=
  match v with
  | JStr t => String.eqb t s
  | _ => false
  end.

(** [bool(v)] for a value that is [None] or a str, such as the result
    of [os.environ.get]: [None] and the empty str are false. *)
Definition truthy_str (v : option string) : bool :=
  match v with
  | Some s => negb (String.eqb s "")
  | None => false
  end.

(** [v or default] for such a value. *)
Definition or_else (v : option string) (default : string) : string :=
  match v with
  | Some s => if truthy_str v then s else default
  | None => default
  end.

(** *** [sorted(xs, key=key, reverse=True)]

    The keys here are pairs of integers, compared as tuples. The keys
    of all items are computed first, in order; the sort is stable, also
    in reverse: items with equal keys keep their order. *)

Definition key_lt (a b : Z * Z) : bool :=
  (fst a <? fst b) || ((fst a =? fst b) && (snd a <? snd b)).

Fixpoint insert_desc {A : Type} (k : Z * Z) (x : A)
  (l : list ((Z * Z) * A)) : list ((Z * Z) * A) :=
  match l with
  | [] => [(k, x)]
  | (k', y) :: l' =>
      if key_lt k k' then (k', y) :: insert_desc k x l' else (k, x) :: l
  end.

Definition sort_desc {A : Type} (l : list ((Z * Z) * A))
  : list ((Z * Z) * A) :=
  fold_right (fun kx acc => insert_desc (fst kx) (snd kx) acc) [] l.

Definition decorate {A : Type} (key : A -> result (Z * Z)) (xs : list A)
  : result (list ((Z * Z) * A)) :=
  mapM (fun x => k <- key x ;; Return (k, x)) xs.

Definition sorted_reverse {A : Type} (key : A -> result (Z * Z))
  (xs : list A) : result (list A) :=
  ks <- decorate key xs ;;
  Return (map snd (sort_desc ks)).

End Py.

(** ** [posixpath] and the process environment *)

Module OS.
Import Py.

(** A call of [requests.get], [requests.post] or [requests.delete]. *)
Record http_request : Type := mkRequest {
  req_method : string;
  req_url : string;
  req_headers : list (string * string);
  req_data : option string;
  req_verify : bool
}.

(** What the code can observe of the world outside the process.
    - [environ]: the environment variables;
    - [pw_dir]: the home directory in the password database entry of
      the current user, [pw_nam] that of a named user ([None] where the
      lookup raises [KeyError]);
    - [path_exists p]: [os.path.exists(p)];
    - [load_json p]: the outcome of [with open(p) as f: json.load(f)];
    - [read_bytes p]: the outcome of
      [with open(p, "rb") as f: f.read()];
    - [send r]: the outcome of the HTTP exchange [r], redirections
      followed. *)
Record world : Type := mkWorld {
  environ : string -> option string;
  pw_dir : option string;
  pw_nam : string -> option string;
  path_exists : string -> bool;
  load_json : string -> result json;
  read_bytes : string -> result (list Byte.byte);
  send : http_request -> result response
}.

(** [os.path.join(a, *p)]. *)
Definition join2 (path b : string) : string :=
  if startswith b "/" then b
  else if (String.eqb path "" || endswith path "/")%bool then path ++ b
  else path ++ "/" ++ b.

Definition join (a : string) (p : list string) : string :=
  fold_left join2 p a.

(** [os.path.expanduser(path)]. *)
Definition expanduser (w : world) (path : string) : string :=
  if negb (startswith path "~") then path
  else
    let i := match String.index 1 "/" path with
             | Some i => i
             | None => String.length path
             end in
    let userhome :=
      if Nat.eqb i 1 then
        match environ w "HOME" with
        | Some h => Some h
        | None => pw_dir w
        end
      else pw_nam w (substring 1 (i - 1) path) in
    match userhome with
    | None => path
    | Some h =>
        let r := rdrop (Ascii.eqb "/") h
                 ++ substring i (String.length path - i) path in
        if String.eqb r "" then "/" else r
    end.

End OS.

(** ** Effects: what a run touched *)

Module IO.
Import Py OS.

Inductive event : Type :=
| Exists (path : string)
| Open (path : string)
| Http (r : http_request).

(** A computation with effects: the events it caused, in order, and its
    outcome. The world is only read, never changed, by this code. *)
Definition io (A : Type) : Type := (list event * result A)%type.

Definition ret {A : Type} (a : A) : io A := ([], Return a).
Definition raise {A : Type} (e : exn) : io A := ([], Raise e).
Definition lift {A : Type} (r : result A) : io A := ([], r).

Definition io_bind {A B : Type} (m : io A) (f : A -> io B) : io B :=
  match m with
  | (t, Return a) => let (t', r) := f a in ((t ++ t')%list, r)
  | (t, Raise e) => (t, Raise e)
  end.

(** [try: m / except <classes>: handler]. *)
Definition try_except {A : Type} (m : io A) (classes : exn -> bool)
  (handler : io A) : io A :=
  match m with
  | (t, Raise e) =>
      if classes e then let (t', r) := handler in ((t ++ t')%list, r)
      else (t, Raise e)
  | _ => m
  end.

Declare Scope io_scope.
Delimit Scope io_scope with io.
Notation "x <- m ;; k" := (io_bind m (fun x => k))
  (at level 61, m at next level, right associativity) : io_scope.

Definition trace {A : Type} (m : io A) : list event := fst m.
Definition outcome {A : Type} (m : io A) : result A := snd m.

Definition os_path_exists (w : world) (p : string) : io bool :=
  ([Exists p], Return (path_exists w p)).

Definition open_json_load (w : world) (p : string) : io json :=
  ([Open p], load_json w p).

Definition open_rb_read (w : world) (p : string) : io (list Byte.byte) :=
  ([Open p], read_bytes w p).

Definition requests_send (w : world) (r : http_request) : io response :=
  ([Http r], send w r).

End IO.

(** ** polar_detect.py *)

Module PolarDetect.
Import Py OS IO.

(** Lines 17-19. The constant is computed when the module is imported;
    the environment is taken to be the same when the functions run. *)
Definition POLAR_NETWORKS_FILE (w : world) : string :=
  expanduser w "~/.polar/networks/networks.json".

(** The dict [find_polar_node] returns. *)
Record polar_node : Type := mkPolarNode {
  name : string;
  lnd_dir : string;
  rest_host : string;
  rest_port : json;
  network_name : json
}.

(** Lines 51-55. *)
Definition sort_key (net : json) : result (Z * Z) :=
  status <- get net "status" (JStr "") ;;
  let is_running := if eq_str status "Started" then 1 else 0 in
  i <- get net "id" (JInt 0) ;;
  net_id <- int i ;;
  Return (is_running, net_id).

(** [os.fspath] on a value: a str passes, anything else is refused. *)
Definition fspath (v : json) : result string :=
  match v with
  | JStr s => Return s
  | _ => Raise TypeError
  end.

(** Lines 72-97: the result for a node that matched. *)
Definition node_result (w : world) (network node name : json)
  : result polar_node :=
  network_path <- get network "path" (JStr "") ;;
  network_path <-
    (if negb (truthy network_path) then
       net_id <- get network "id" (JStr "") ;;
       Return (JStr (expanduser w ("~/.polar/networks/" ++ str net_id)))
     else Return network_path) ;;
  a <- fspath network_path ;;
  b <- fspath name ;;
  let lnd_dir := join a ["volumes"; "lnd"; b] in
  ports <- get node "ports" (JDict []) ;;
  rest_port <- get ports "rest" (JInt 8082) ;;
  let rest_host := "https://127.0.0.1:" ++ str rest_port in
  network_name <- get network "name" (JStr "unknown") ;;
  Return {| name := b; lnd_dir := lnd_dir; rest_host := rest_host;
            rest_port := rest_port; network_name := network_name |}.

(** Lines 63-97: the loop over the lightning nodes of one network.
    [None] when the loop ends without a [return]. *)
Fixpoint scan_nodes (w : world) (node_name : string) (network : json)
  (lnd_nodes : list json) : result (option polar_node) :=
  match lnd_nodes with
  | [] => Return None
  | node :: rest =>
      impl <- get node "implementation" (JStr "") ;;
      name <- get node "name" (JStr "") ;;
      u <- upper_of impl ;;
      if negb (String.eqb u "LND") then scan_nodes w node_name network rest
      else
        l <- lower_of name ;;
        if negb (String.eqb l (lower node_name))
        then scan_nodes w node_name network rest
        else
          r <- node_result w network node name ;;
          Return (Some r)
  end.

(** Lines 60-97: the body of the outer loop for one network. *)
Definition scan_network (w : world) (node_name : string) (network : json)
  : result (option polar_node) :=
  nodes <- get network "nodes" (JDict []) ;;
  lnd_nodes <- get nodes "lightning" (JList []) ;;
  items <- iter lnd_nodes ;;
  scan_nodes w node_name network items.

(** Lines 59-99: the loop over the sorted networks. *)
Fixpoint scan_networks (w : world) (node_name : string)
  (networks_sorted : list json) : result (option polar_node) :=
  match networks_sorted with
  | [] => Return None
  | network :: rest =>
      r <- scan_network w node_name network ;;
      match r with
      | Some p => Return (Some p)
      | None => scan_networks w node_name rest
      end
  end.

(** Lines 46-99: what happens once the file has been loaded, outside
    the [try] block. *)
Definition find_in_data (w : world) (node_name : string) (data : json)
  : result (option polar_node) :=
  networks <- get data "networks" (JList []) ;;
  if negb (truthy networks) then Return None
  else
    items <- iter networks ;;
    networks_sorted <- sorted_reverse sort_key items ;;
    scan_networks w node_name networks_sorted.

(** Lines 22-99. The handler of the [try] block returns [None] from
    the function; [loaded] is [None] in that case. *)
Definition find_polar_node (w : world) (node_name : string)
  : io (option polar_node) :=
  (present <- os_path_exists w (POLAR_NETWORKS_FILE w) ;;
   if negb present then ret None
   else
     loaded <- try_except
                 (data <- open_json_load w (POLAR_NETWORKS_FILE w) ;;
                  ret (Some data))
                 (fun e => is_JSONDecodeError e || is_OSError e)
                 (ret None) ;;
     match loaded with
     | None => ret None
     | Some data => lift (find_in_data w node_name data)
     end)%io.

(** Lines 102-130. *)
Definition auto_detect (w : world) (node_name : string)
  : io (option string * option string) :=
  let env_lnd_dir := environ w "LND_DIR" in
  let env_rest_host := environ w "REST_HOST" in
  if truthy_str env_lnd_dir && truthy_str env_rest_host
  then ret (option_map (expanduser w) env_lnd_dir, env_rest_host)
  else
    (polar <- find_polar_node w node_name ;;
     match polar with
     | Some p => ret (Some (lnd_dir p), Some (rest_host p))
     | None => ret (None, None)
     end)%io.

End PolarDetect.

(** ** lnd_client.py *)

Module LndClient.
Import Py OS IO.

(** The module constants, set when the module is imported (lines
    24-27); the import fails if [auto_detect] raises. *)
Record constants : Type := mkConstants {
  LND_DIR : string;
  REST_HOST : string
}.

Definition import_constants (w : world) : io constants :=
  (detected <- PolarDetect.auto_detect w "bob" ;;
   ret {| LND_DIR := or_else (fst detected)
                       (expanduser w "~/bootcamp-code/day3/bob");
          REST_HOST := or_else (snd detected) "https://localhost:8082" |})%io.

Record LNDClient : Type := mkLNDClient {
  lnd_dir : string;
  rest_host : string;
  macaroon : option string;
  tls_cert : string
}.

(** [bytes.hex()]. *)
Definition hex (b : list Byte.byte) : string :=
  String.concat "" (map (fun x => hex2 (Byte.to_N x)) b).

(** Lines 41-57. *)
Definition __init__ (w : world) (c : constants)
  (lnd_dir rest_host : option string) : io LNDClient :=
  let self_lnd_dir := or_else lnd_dir (LND_DIR c) in
  let self_rest_host := or_else rest_host (REST_HOST c) in
  let macaroon_path :=
    join self_lnd_dir
      ["data"; "chain"; "bitcoin"; "regtest"; "admin.macaroon"] in
  (self_macaroon <- try_except
                      (b <- open_rb_read w macaroon_path ;;
                       ret (Some (hex b)))
                      is_FileNotFoundError
                      (ret None) ;;
   ret {| lnd_dir := self_lnd_dir;
          rest_host := self_rest_host;
          macaroon := self_macaroon;
          tls_cert := join self_lnd_dir ["tls.cert"] |})%io.

Definition dumps_char (c : ascii) : string :=
  let n := N_of_ascii c in
  if (Ascii.eqb c dquote || Ascii.eqb c backslash)%bool
  then String backslash (String c "")
  else if (n =? 10)%N then String backslash "n"
  else if (n =? 13)%N then String backslash "r"
  else if (n =? 9)%N then String backslash "t"
  else if (n =? 8)%N then String backslash "b"
  else if (n =? 12)%N then String backslash "f"
  else if ((n <? 32) || (127 <=? n))%N
  then String backslash ("u00" ++ hex2 n)
  else String c "".

Definition dumps_str (s : string) : string :=
  String dquote (concat_map_string dumps_char s ++ String dquote "").

(** [json.dumps(v)] with its default settings. *)
Fixpoint dumps (v : json) : string :=
  match v with
  | JNull => "null"
  | JBool true => "true"
  | JBool false => "false"
  | JInt z => str_of_int z
  | JStr s => dumps_str s
  | JList l => "[" ++ join_with ", " (map dumps l) ++ "]"
  | JDict d =>
      "{" ++ join_with ", "
               (map (fun kv => dumps_str (fst kv) ++ ": " ++ dumps (snd kv)) d)
          ++ "}"
  end.

(** [Response.raise_for_status()] of the [requests] library: it raises
    for a status from 400 to 599 and for no other. *)
Definition raise_for_status (resp : response) : result unit :=
  let http_error_msg :=
    if (400 <=? status_code resp) && (status_code resp <? 500) then
      str_of_int (status_code resp) ++ " Client Error: " ++ reason resp
        ++ " for url: " ++ resp_url resp
    else if (500 <=? status_code resp) && (status_code resp <? 600) then
      str_of_int (status_code resp) ++ " Server Error: " ++ reason resp
        ++ " for url: " ++ resp_url resp
    else "" in
  if negb (String.eqb http_error_msg "")
  then Raise (HTTPError http_error_msg resp)
  else Return tt.

(** [Response.json()]. *)
Definition response_json (resp : response) : result json :=
  match json_body resp with
  | Some v => Return v
  | None => Raise JSONDecodeError
  end.

(** Lines 59-83. *)
Definition _request (w : world) (self : LNDClient)
  (method endpoint : string) (data : json) : io json :=
  if negb (truthy_str (macaroon self)) then
    raise (ConnectionError
             ("LND not found at " ++ lnd_dir self ++ ". "
              ++ "Make sure your LND node is set up. "
              ++ "If using Polar, make sure it's running with a node named 'bob'."))
  else
    let url := rest_host self ++ endpoint in
    let headers := [("Grpc-Metadata-macaroon", or_else (macaroon self) "")] in
    (resp <-
       (if String.eqb method "GET" then
          requests_send w
            {| req_method := "GET"; req_url := url;
               req_headers := headers; req_data := None;
               req_verify := false |}
        else if String.eqb method "POST" then
          requests_send w
            {| req_method := "POST"; req_url := url;
               req_headers :=
                 headers ++ [("Content-Type", "application/json")];
               req_data := Some (dumps data);
               req_verify := false |}
        else if String.eqb method "DELETE" then
          requests_send w
            {| req_method := "DELETE"; req_url := url;
               req_headers := headers; req_data := None;
               req_verify := false |}
        else raise (ValueError ("Unsupported method: " ++ method))) ;;
     _ <- lift (raise_for_status resp) ;;
     lift (response_json resp))%io.

(** The endpoint wrappers; [data] is [None] where the source passes
    none. *)
Definition get_info (w : world) (self : LNDClient) : io json :=
  _request w self "GET" "/v1/getinfo" JNull.

Definition channel_balance (w : world) (self : LNDClient) : io json :=
  _request w self "GET" "/v1/balance/channels" JNull.

Definition wallet_balance (w : world) (self : LNDClient) : io json :=
  _request w self "GET" "/v1/balance/blockchain" JNull.

Definition add_invoice (w : world) (self : LNDClient) (amount : Z)
  (memo : string) : io json :=
  let data := JDict [("value", JStr (str_of_int amount));
                     ("memo", JStr memo)] in
  _request w self "POST" "/v1/invoices" data.

Definition lookup_invoice (w : world) (self : LNDClient)
  (r_hash_str : string) : io json :=
  _request w self "GET" ("/v1/invoice/" ++ r_hash_str) JNull.

Definition list_invoices (w : world) (self : LNDClient) : io json :=
  _request w self "GET" "/v1/invoices" JNull.

Definition list_payments (w : world) (self : LNDClient) : io json :=
  _request w self "GET" "/v1/payments" JNull.

Definition decode_pay_req (w : world) (self : LNDClient)
  (pay_req : string) : io json :=
  _request w self "GET" ("/v1/payreq/" ++ pay_req) JNull.

Definition list_channels (w : world) (self : LNDClient) : io json :=
  _request w self "GET" "/v1/channels" JNull.

Definition list_peers (w : world) (self : LNDClient) : io json :=
  _request w self "GET" "/v1/peers" JNull.

End LndClient.

(** ** Vocabulary of the specification *)

Module Spec.
Import Py OS IO PolarDetect.

(** Equality of two texts, letter case apart. *)
Definition caseless_eq (a b : string) : bool :=
  String.eqb (lower a) (lower b).

(** The matching condition on a node entry: an implementation that is
    "LND" and a name that is the requested one, both letter case
    apart. *)
Definition matches (node_name : string) (node : json) : bool :=
  match get node "implementation" (JStr ""), get node "name" (JStr "") with
  | Return (JStr impl), Return (JStr nm) =>
      caseless_eq impl "LND" && caseless_eq nm node_name
  | _, _ => false
  end.

(** The lightning-node entries of a network, in file order. *)
Definition lightning_nodes (network : json) : result (list json) :=
  nodes <- get network "nodes" (JDict []) ;;
  lnd_nodes <- get nodes "lightning" (JList []) ;;
  iter lnd_nodes.

(** A network whose status is exactly "Started". *)
Definition started (network : json) : bool :=
  match get network "status" (JStr "") with
  | Return s => eq_str s "Started"
  | Raise _ => false
  end.

(** The numeric identifier of a network. *)
Definition numeric_id (network : json) : result Z :=
  i <- get network "id" (JInt 0) ;;
  int i.

(** [considered_before a b]: the selection order puts [a] no later than
    [b]: a started network before one that is not, and within a status
    group the higher identifier first. *)
Definition considered_before (a b : json) : Prop :=
  exists ia ib,
    numeric_id a = Return ia /\ numeric_id b = Return ib /\
    ((started a = true /\ started b = false) \/
     (started a = started b /\ ib <= ia)).

(** [first_match w n p]: the node [p] is built from the first entry of
    the descriptor that matches [n]: the entry satisfies both
    conditions, no entry before it in its network matches, and no entry
    of a network that the selection order puts before its network
    does. *)
Definition first_match (w : world) (n : string) (p : polar_node) : Prop :=
  exists data nets items order before net after pre node post impl nm,
    load_json w (POLAR_NETWORKS_FILE w) = Return data /\
    get data "networks" (JList []) = Return nets /\
    iter nets = Return items /\
    sorted_reverse sort_key items = Return order /\
    order = (before ++ net :: after)%list /\
    lightning_nodes net = Return (pre ++ node :: post)%list /\
    get node "implementation" (JStr "") = Return (JStr impl) /\
    caseless_eq impl "LND" = true /\
    get node "name" (JStr "") = Return (JStr nm) /\
    caseless_eq nm n = true /\
    node_result w net node (JStr nm) = Return p /\
    Forall (fun x => matches n x = false) pre /\
    Forall (fun net' =>
              exists l, lightning_nodes net' = Return l /\
                        Forall (fun x => matches n x = false) l) before.

(** A descriptor with no network. *)
Definition no_networks (data : json) : Prop :=
  exists d,
    data = JDict d /\
    (assoc "networks" d = None \/ assoc "networks" d = Some (JList [])).

(** Lines 124-130 of [auto_detect]: detection from the descriptor
    alone. *)
Definition descriptor_detection (w : world) (node_name : string)
  : io (option string * option string) :=
  (polar <- find_polar_node w node_name ;;
   match polar with
   | Some p => ret (Some (lnd_dir p), Some (rest_host p))
   | None => ret (None, None)
   end)%io.

(** The world with both override variables removed from the
    environment. *)
Definition unset_overrides (w : world) : world :=
  {| environ := fun k =>
       if (String.eqb k "LND_DIR" || String.eqb k "REST_HOST")%bool
       then None else environ w k;
     pw_dir := pw_dir w;
     pw_nam := pw_nam w;
     path_exists := path_exists w;
     load_json := load_json w;
     read_bytes := read_bytes w;
     send := send w |}.

(** In a decorated list, [a] may stand before [b]: its key is not the
    smaller one. *)
Definition not_below {A : Type} (a b : (Z * Z) * A) : Prop :=
  key_lt (fst a) (fst b) = false.

(** [contains s t]: the text [t] occurs in [s]. *)
Definition contains (s t : string) : Prop :=
  exists pre post, s = pre ++ t ++ post.

(** The shape the code expects of a descriptor: the schema
    [{"networks": [{"id", "name", "status", "path"?, "nodes":
    {"lightning": [{"implementation", "name", "ports": {"rest"?}}]}}]}],
    every key optional. *)
Definition is_str (v : json) : bool :=
  match v with JStr _ => true | _ => false end.

Definition is_dict (v : json) : bool :=
  match v with JDict _ => true | _ => false end.

Definition field (d : list (string * json)) (k : string) (default : json)
  : json :=
  match assoc k d with Some x => x | None => default end.

Definition node_ok (node : json) : bool :=
  match node with
  | JDict d =>
      is_str (field d "implementation" (JStr ""))
      && is_str (field d "name" (JStr ""))
      && is_dict (field d "ports" (JDict []))
  | _ => false
  end.

(** The path of a network is a str, or a value that counts as
    false. *)
Definition path_ok (d : list (string * json)) : bool :=
  is_str (field d "path" (JStr ""))
  || negb (truthy (field d "path" (JStr ""))).

Definition network_ok (network : json) : bool :=
  match network with
  | JDict d =>
      match int (field d "id" (JInt 0)) with
      | Return _ => true
      | Raise _ => false
      end
      && path_ok d
      && match field d "nodes" (JDict []) with
         | JDict nd =>
             match field nd "lightning" (JList []) with
             | JList l => forallb node_ok l
             | _ => false
             end
         | _ => false
         end
  | _ => false
  end.

Definition descriptor_ok (data : json) : bool :=
  match data with
  | JDict d =>
      match field d "networks" (JList []) with
      | JList l => forallb network_ok l
      | _ => false
      end
  | _ => false
  end.

(** The node that resolution is to return for an entry, in the words
    of the specification. The directory is the network path, or the
    expansion of [~/.polar/networks/<id>] when the descriptor gives
    none, joined with [volumes], [lnd] and the name as the descriptor
    spells it; the URL is [https://127.0.0.1:<port>] for the configured
    REST port, or 8082. *)
Definition base_path (w : world) (d : list (string * json)) : string :=
  let default :=
    expanduser w ("~/.polar/networks/" ++ str (field d "id" (JStr ""))) in
  match field d "path" (JStr "") with
  | JStr p => if String.eqb p "" then default else p
  | _ => default
  end.

Definition rest_port_of (dnode : list (string * json)) : json :=
  match field dnode "ports" (JDict []) with
  | JDict ports => field ports "rest" (JInt 8082)
  | _ => JInt 8082
  end.

Definition expected_node (w : world) (d dnode : list (string * json))
  (nm : string) : polar_node :=
  {| name := nm;
     lnd_dir := join (base_path w d) ["volumes"; "lnd"; nm];
     rest_host := "https://127.0.0.1:" ++ str (rest_port_of dnode);
     rest_port := rest_port_of dnode;
     network_name := field d "name" (JStr "unknown") |}.

(** [contains_match n network]: some lightning-node entry of the
    network matches [n]. [first_entry n network dnode nm]: the entry
    [dnode], recorded under the name [nm], is the first that does. *)
Definition contains_match (n : string) (network : json) : Prop :=
  exists l node,
    lightning_nodes network = Return l /\ In node l /\
    matches n node = true.

Definition first_entry (n : string) (network : json)
  (dnode : list (string * json)) (nm : string) : Prop :=
  exists pre post,
    lightning_nodes network = Return (pre ++ JDict dnode :: post)%list /\
    Forall (fun x => matches n x = false) pre /\
    matches n (JDict dnode) = true /\
    field dnode "name" (JStr "") = JStr nm.

End Spec.

(** ** Sample descriptors and worlds *)

Module Examples.
Import Py OS IO PolarDetect.

Definition home_only (k : string) : option string :=
  if String.eqb k "HOME" then Some "/home/dev" else None.

Definition descriptor_file : string :=
  "/home/dev/.polar/networks/networks.json".

(** A world with the given environment in which the descriptor file,
    when there is one, loads with the given outcome; there is no other
    file and no network. *)
Definition world_of (env : string -> option string)
  (descriptor : option (result json)) : world :=
  {| environ := env;
     pw_dir := None;
     pw_nam := fun _ => None;
     path_exists := fun p =>
       match descriptor with
       | Some _ => String.eqb p descriptor_file
       | None => false
       end;
     load_json := fun p =>
       match descriptor with
       | Some r => if String.eqb p descriptor_file then r
                   else Raise FileNotFoundError
       | None => Raise FileNotFoundError
       end;
     read_bytes := fun _ => Raise FileNotFoundError;
     send := fun _ => Raise RequestException |}.

Definition lnd_node (nm : string) (rest : Z) : json :=
  JDict [("implementation", JStr "LND"); ("name", JStr nm);
         ("ports", JDict [("rest", JInt rest)])].

Definition network (id : Z) (status path : string) (nodes : list json)
  : json :=
  JDict [("id", JInt id); ("name", JStr "regtest"); ("status", JStr status);
         ("path", JStr path); ("nodes", JDict [("lightning", JList nodes)])].

Definition descriptor (networks : list json) : json :=
  JDict [("networks", JList networks)].

(** A stopped network with the higher identifier, then a started one. *)
Definition stopped7 : json :=
  network 7 "Stopped" "/srv/polar/7" [lnd_node "bob" 8087].
Definition started1 : json :=
  network 1 "Started" "/srv/polar/1" [lnd_node "bob" 8081].
Definition two_networks : world :=
  world_of home_only (Some (Return (descriptor [stopped7; started1]))).

(** Both override variables set, next to a descriptor that would
    match. *)
Definition both_set_env (k : string) : option string :=
  if String.eqb k "LND_DIR" then Some "~/lnd-data"
  else if String.eqb k "REST_HOST" then Some "https://10.0.0.5:8080"
  else home_only k.
Definition both_set : world :=
  world_of both_set_env (Some (Return (descriptor [stopped7; started1]))).

(** The directory override alone. *)
Definition only_dir_env (k : string) : option string :=
  if String.eqb k "LND_DIR" then Some "~/lnd-data" else home_only k.
Definition only_dir : world :=
  world_of only_dir_env (Some (Return (descriptor [stopped7; started1]))).

(** The host override set to the empty text. *)
Definition empty_host_env (k : string) : option string :=
  if String.eqb k "LND_DIR" then Some "~/lnd-data"
  else if String.eqb k "REST_HOST" then Some ""
  else home_only k.
Definition empty_host : world :=
  world_of empty_host_env (Some (Return (descriptor [stopped7; started1]))).

(** No descriptor file; a descriptor with no network. *)
Definition no_file : world := world_of home_only None.
Definition empty_descriptor : world :=
  world_of home_only (Some (Return (descriptor []))).

(** A node recorded as "Bob". *)
Definition capital_bob : world :=
  world_of home_only
    (Some (Return (descriptor
       [network 3 "Started" "/srv/polar/3" [lnd_node "Bob" 8083]]))).

(** A node whose recorded name starts with a slash. *)
Definition slash_name : world :=
  world_of home_only
    (Some (Return (descriptor
       [network 1 "Started" "/srv/polar/1" [lnd_node "/bob" 8081]]))).

(** A descriptor that is a JSON list. *)
Definition list_descriptor : world :=
  world_of home_only (Some (Return (JList []))).

(** A server that answers every request with the given response. *)
Definition server (resp : response) : world :=
  {| environ := home_only;
     pw_dir := None;
     pw_nam := fun _ => None;
     path_exists := fun _ => false;
     load_json := fun _ => Raise FileNotFoundError;
     read_bytes := fun _ => Raise FileNotFoundError;
     send := fun _ => Return resp |}.

Definition unavailable : response :=
  {| status_code := 503; reason := "Service Unavailable";
     resp_url := "https://localhost:8082/v1/getinfo";
     text := "lnd is starting"; json_body := None |}.

Definition multiple_choices : response :=
  {| status_code := 300; reason := "Multiple Choices";
     resp_url := "https://localhost:8082/v1/getinfo";
     text := "{}"; json_body := Some (JDict []) |}.

Definition defaults : LndClient.constants :=
  {| LndClient.LND_DIR := "/home/dev/bootcamp-code/day3/bob";
     LndClient.REST_HOST := "https://localhost:8082" |}.

Definition client : LndClient.LNDClient :=
  {| LndClient.lnd_dir := "/srv/polar/1/volumes/lnd/bob";
     LndClient.rest_host := "https://localhost:8082";
     LndClient.macaroon := Some "0201036c6e64";
     LndClient.tls_cert := "/srv/polar/1/volumes/lnd/bob/tls.cert" |}.

End Examples.

(** ** Using the resolver and the client together *)

Module Usage.
Import Py OS IO PolarDetect.

(** [LNDClient()] in a fresh process (lines 22-27, then line 179): the
    module is imported, which sets its constants, and the class is
    instantiated with no argument. *)
Definition default_client (w : world) : io LndClient.LNDClient :=
  (c <- LndClient.import_constants w ;;
   LndClient.__init__ w c None None)%io.

(** The methods that [_request] dispatches on. *)
Definition supported (method : string) : bool :=
  String.eqb method "GET" || String.eqb method "POST"
  || String.eqb method "DELETE".

(** The token file of a node directory. *)
Definition macaroon_path (lnd_dir : string) : string :=
  join lnd_dir ["data"; "chain"; "bitcoin"; "regtest"; "admin.macaroon"].

(** The message of the error raised when no token was loaded. *)
Definition not_found_message (lnd_dir : string) : string :=
  "LND not found at " ++ lnd_dir ++ ". "
  ++ "Make sure your LND node is set up. "
  ++ "If using Polar, make sure it's running with a node named 'bob'.".

(** [sends m method url body]: the run [m] causes exactly one event,
    an HTTP request with this method, URL and body, certificate
    verification off. *)
Definition sends (m : io json) (method url : string)
  (body : option string) : Prop :=
  exists r,
    trace m = [Http r] /\
    req_method r = method /\ req_url r = url /\ req_data r = body /\
    req_verify r = false.

(** [has_match n network]: some lightning-node entry of the network
    matches [n]. *)
Definition has_match (n : string) (network : json) : bool :=
  match Spec.lightning_nodes network with
  | Return l => existsb (Spec.matches n) l
  | Raise _ => false
  end.

(** A world with a token file of the given content under every
    directory and a server that answers every request with the given
    outcome. *)
Definition node_world (token : result (list Byte.byte))
  (answer : result response) : world :=
  {| environ := Examples.home_only;
     pw_dir := None;
     pw_nam := fun _ => None;
     path_exists := fun _ => false;
     load_json := fun _ => Raise FileNotFoundError;
     read_bytes := fun _ => token;
     send := fun _ => answer |}.

Definition info : response :=
  {| status_code := 200; reason := "OK";
     resp_url := "https://localhost:8082/v1/getinfo";
     text := "{}"; json_body := Some (JDict [("alias", JStr "bob")]) |}.

(** A descriptor file that cannot be decoded as text. *)
Definition undecodable : world :=
  Examples.world_of Examples.home_only (Some (Raise UnicodeDecodeError)).

(** A network whose only node named bob is not an LND node. *)
Definition other_implementation : world :=
  Examples.world_of Examples.home_only
    (Some (Return (Examples.descriptor
       [JDict [("id", JInt 2); ("status", JStr "Started");
               ("nodes", JDict [("lightning",
                  JList [JDict [("implementation", JStr "c-lightning");
                                ("name", JStr "bob")];
                         Examples.lnd_node "alice" 8081])])]]))).

(** Two started networks with the same identifier. *)
Definition twin_a : json :=
  Examples.network 4 "Started" "/srv/polar/a" [Examples.lnd_node "bob" 8084].
Definition twin_b : json :=
  Examples.network 4 "Started" "/srv/polar/b" [Examples.lnd_node "bob" 8085].
Definition twins : world :=
  Examples.world_of Examples.home_only
    (Some (Return (Examples.descriptor [twin_a; twin_b]))).

(** A good network followed by one whose identifier is no number. *)
Definition unnumbered : json :=
  JDict [("id", JStr "staging"); ("status", JStr "Stopped")].
Definition one_bad_id : world :=
  Examples.world_of Examples.home_only
    (Some (Return (Examples.descriptor [Examples.started1; unnumbered]))).


(** A descriptor file that holds the JSON value null. *)
Definition null_descriptor : world :=
  Examples.world_of Examples.home_only (Some (Return JNull)).

(** A node directory in which [data] is a regular file: the token file
    does not exist, and opening it fails with [NotADirectoryError]. *)
Definition data_is_a_file : world :=
  node_world (Raise NotADirectoryError) (Return info).

End Usage.

(** ** Properties *)

Import Py OS IO PolarDetect Spec.

(** *** Strings *)

Lemma append_nil_r (s : string) : s ++ "" = s.
Proof. induction s as [|c s IH]; simpl; [reflexivity | now rewrite IH]. Qed.

Lemma append_assoc (a b c : string) : (a ++ b) ++ c = a ++ (b ++ c).
Proof. induction a as [|x a IH]; simpl; [reflexivity | now rewrite IH]. Qed.

Lemma append_eq_nil (a b : string) : a ++ b = "" -> a = "" /\ b = "".
Proof. destruct a; simpl; [auto | discriminate]. Qed.

Lemma string_rev_onto_app (s acc : string) :
  string_rev_onto acc s = string_rev s ++ acc.
Proof.
  unfold string_rev. revert acc.
  induction s as [|c s IH]; intros acc; simpl; [reflexivity|].
  rewrite (IH (String c acc)), (IH (String c "")), append_assoc.
  reflexivity.
Qed.

Lemma string_rev_cons (c : ascii) (s : string) :
  string_rev (String c s) = string_rev s ++ String c "".
Proof. unfold string_rev at 1. simpl. apply string_rev_onto_app. Qed.

Lemma string_rev_app (s t : string) :
  string_rev (s ++ t) = string_rev t ++ string_rev s.
Proof.
  induction s as [|c s IH]; simpl.
  - now rewrite append_nil_r.
  - now rewrite !string_rev_cons, IH, append_assoc.
Qed.

Lemma startswith_slash_app (s t : string) :
  s <> "" -> startswith (s ++ t) "/" = startswith s "/".
Proof. destruct s as [|c s]; [congruence | intros _; reflexivity]. Qed.

Lemma string_rev_eq_nil (s : string) : string_rev s = "" -> s = "".
Proof.
  destruct s as [|c s]; [reflexivity|].
  rewrite string_rev_cons. intros H.
  apply append_eq_nil in H. destruct H; discriminate.
Qed.

(** The last character decides [endswith _ "/"]. *)
Lemma endswith_slash_app (s t : string) :
  t <> "" -> endswith (s ++ t) "/" = endswith t "/".
Proof.
  intros Ht. unfold endswith. rewrite string_rev_app.
  apply startswith_slash_app.
  intros H. apply Ht. now apply string_rev_eq_nil.
Qed.

(** *** Paths *)


Lemma join2_plain (p b : string) :
  p <> "" -> endswith p "/" = false -> startswith b "/" = false ->
  join2 p b = p ++ "/" ++ b.
Proof.
  intros Hp He Hb. unfold join2. rewrite Hb, He.
  apply String.eqb_neq in Hp. now rewrite Hp.
Qed.

Lemma join2_nonempty (p b : string) : p <> "" -> join2 p b <> "".
Proof.
  intros Hp. unfold join2.
  destruct (startswith b "/") eqn:Hb.
  - destruct b; [discriminate | congruence].
  - destruct (String.eqb p "" || endswith p "/")%bool; intros H;
      apply append_eq_nil in H; tauto.
Qed.

(** The directory of a node, in the plain case. *)
Lemma join_volumes_plain (p nm : string) :
  p <> "" -> endswith p "/" = false -> startswith nm "/" = false ->
  join p ["volumes"; "lnd"; nm] = p ++ "/volumes/lnd/" ++ nm.
Proof.
  intros Hp He Hn. unfold join. simpl.
  rewrite (join2_plain p "volumes" Hp He eq_refl).
  assert (H1 : p ++ "/" ++ "volumes" <> "").
  { intros H. apply append_eq_nil in H. tauto. }
  assert (E1 : endswith (p ++ "/" ++ "volumes") "/" = false).
  { rewrite endswith_slash_app; [reflexivity | discriminate]. }
  rewrite (join2_plain _ "lnd" H1 E1 eq_refl).
  assert (H2 : (p ++ "/" ++ "volumes") ++ "/" ++ "lnd" <> "").
  { intros H. apply append_eq_nil in H. destruct H as [_ H]. discriminate. }
  assert (E2 : endswith ((p ++ "/" ++ "volumes") ++ "/" ++ "lnd") "/" = false).
  { rewrite endswith_slash_app; [reflexivity | discriminate]. }
  rewrite (join2_plain _ nm H2 E2 Hn).
  rewrite !append_assoc. reflexivity.
Qed.


Lemma join_volumes_nonempty (p nm : string) :
  join p ["volumes"; "lnd"; nm] <> "".
Proof.
  unfold join. simpl. apply join2_nonempty, join2_nonempty.
  unfold join2. simpl.
  destruct (String.eqb p "" || endswith p "/")%bool; intros H;
    apply append_eq_nil in H; destruct H; discriminate.
Qed.

(** *** Letter case *)

Lemma upper_eqb_L (c : ascii) :
  Ascii.eqb (ascii_upper c) "L" = Ascii.eqb (ascii_lower c) "l".
Proof. destruct c as [[] [] [] [] [] [] [] []]; reflexivity. Qed.

Lemma upper_eqb_N (c : ascii) :
  Ascii.eqb (ascii_upper c) "N" = Ascii.eqb (ascii_lower c) "n".
Proof. destruct c as [[] [] [] [] [] [] [] []]; reflexivity. Qed.

Lemma upper_eqb_D (c : ascii) :
  Ascii.eqb (ascii_upper c) "D" = Ascii.eqb (ascii_lower c) "d".
Proof. destruct c as [[] [] [] [] [] [] [] []]; reflexivity. Qed.

(** The test [impl.upper() != "LND"] of the code is the negation of
    equality with "LND", letter case apart. *)
Lemma upper_is_LND (s : string) :
  String.eqb (upper s) "LND" = caseless_eq s "LND".
Proof.
  unfold caseless_eq.
  change (lower "LND") with "lnd".
  destruct s as [|a [|b [|c [|d s]]]]; try reflexivity;
    cbn [upper lower map_string String.eqb];
    rewrite ?upper_eqb_L, ?upper_eqb_N, ?upper_eqb_D, ?andb_false_r;
    reflexivity.
Qed.

(** *** The sort *)

Lemma key_lt_true (a b : Z * Z) :
  key_lt a b = true <->
  fst a < fst b \/ (fst a = fst b /\ snd a < snd b).
Proof.
  unfold key_lt.
  rewrite orb_true_iff, andb_true_iff, !Z.ltb_lt, Z.eqb_eq. tauto.
Qed.

Lemma key_lt_false (a b : Z * Z) :
  key_lt a b = false <->
  fst b < fst a \/ (fst a = fst b /\ snd b <= snd a).
Proof.
  destruct (key_lt a b) eqn:E.
  - apply key_lt_true in E. split; [discriminate | lia].
  - split; [intros _ | reflexivity].
    assert (H : ~ (fst a < fst b \/ (fst a = fst b /\ snd a < snd b))).
    { intros H. apply key_lt_true in H. congruence. }
    lia.
Qed.

Section Sort.
Context {A : Type}.

Lemma insert_desc_perm (k : Z * Z) (x : A) (l : list ((Z * Z) * A)) :
  Permutation ((k, x) :: l) (insert_desc k x l).
Proof.
  induction l as [|[k' y] l IH]; simpl; [reflexivity|].
  destruct (key_lt k k'); [|reflexivity].
  rewrite perm_swap. now constructor.
Qed.

Lemma sort_desc_perm (l : list ((Z * Z) * A)) :
  Permutation l (sort_desc l).
Proof.
  induction l as [|[k x] l IH]; simpl; [constructor|].
  rewrite <- insert_desc_perm. now constructor.
Qed.

Lemma insert_desc_sorted (k : Z * Z) (x : A) (l : list ((Z * Z) * A)) :
  StronglySorted not_below l ->
  StronglySorted not_below (insert_desc k x l).
Proof.
  induction 1 as [|[k' y] l Hs IH Hall]; simpl.
  - repeat constructor.
  - destruct (key_lt k k') eqn:E.
    + constructor; [exact IH|].
      apply (Permutation_Forall (insert_desc_perm k x l)).
      constructor; [|exact Hall].
      unfold not_below; simpl.
      apply key_lt_true in E. apply key_lt_false. lia.
    + constructor; [now constructor|].
      constructor; [exact E|].
      eapply Forall_impl; [|exact Hall].
      intros [k'' z]. unfold not_below; simpl.
      rewrite !key_lt_false in *. lia.
Qed.

Lemma sort_desc_sorted (l : list ((Z * Z) * A)) :
  StronglySorted not_below (sort_desc l).
Proof.
  induction l as [|[k x] l IH]; simpl; [constructor|].
  now apply insert_desc_sorted.
Qed.

(** Decorating keeps the items, in order, each with its key. *)
Lemma decorate_spec (key : A -> result (Z * Z)) (xs : list A)
  (ks : list ((Z * Z) * A)) :
  decorate key xs = Return ks ->
  map snd ks = xs /\ Forall (fun kx => key (snd kx) = Return (fst kx)) ks.
Proof.
  unfold decorate. revert ks.
  induction xs as [|x xs IH]; simpl; intros ks H.
  - injection H as <-. split; constructor.
  - destruct (key x) as [k|e] eqn:Ek; simpl in H; [|discriminate].
    destruct (mapM _ xs) as [ks'|e]; simpl in H; [|discriminate].
    injection H as <-. destruct (IH ks' eq_refl) as [Hm Hf].
    split; simpl; [now rewrite Hm | constructor; auto].
Qed.

(** Decorating succeeds when every key can be computed. *)
Lemma decorate_total (key : A -> result (Z * Z)) (xs : list A) :
  Forall (fun x => exists k, key x = Return k) xs ->
  exists ks, decorate key xs = Return ks.
Proof.
  unfold decorate.
  induction 1 as [|x xs [k Hk] _ [ks IH]]; simpl.
  - now exists [].
  - rewrite Hk. simpl. rewrite IH. simpl. now eexists.
Qed.

(** The outcome of [sorted_reverse]: the same items, each standing
    before those whose key is not larger. *)
Lemma sorted_reverse_spec (key : A -> result (Z * Z)) (xs ys : list A) :
  sorted_reverse key xs = Return ys ->
  Permutation xs ys /\
  StronglySorted
    (fun a b => exists ka kb,
         key a = Return ka /\ key b = Return kb /\ key_lt ka kb = false) ys.
Proof.
  unfold sorted_reverse. intros H.
  destruct (decorate key xs) as [ks|e] eqn:Ed; simpl in H; [|discriminate].
  injection H as <-.
  destruct (decorate_spec key xs ks Ed) as [Hm Hf].
  split.
  - rewrite <- Hm. apply Permutation_map, sort_desc_perm.
  - assert (Hf' : Forall (fun kx => key (snd kx) = Return (fst kx))
                    (sort_desc ks))
      by (apply (Permutation_Forall (sort_desc_perm ks)); exact Hf).
    pose proof (sort_desc_sorted ks) as Hs.
    induction Hs as [|a l Hs IH Hall]; simpl; [constructor|].
    inversion Hf' as [|? ? Ha Hl]; subst.
    constructor; [now apply IH|].
    apply Forall_map.
    rewrite Forall_forall in *. intros b Hb.
    exists (fst a), (fst b). repeat split; auto.
    now apply Hall.
Qed.

End Sort.

(** *** The scan *)


(** One turn of the inner loop: the entry is passed over when it does
    not match, and decides the result when it does. *)
Lemma scan_nodes_cons_inv (w : world) (n : string) (net node : json)
  (rest : list json) (r : option polar_node) :
  scan_nodes w n net (node :: rest) = Return r ->
  (matches n node = false /\ scan_nodes w n net rest = Return r) \/
  (matches n node = true /\
   exists nm p,
     get node "name" (JStr "") = Return (JStr nm) /\
     node_result w net node (JStr nm) = Return p /\ r = Some p).
Proof.
  destruct node as [| | | | |d]; try discriminate.
  unfold matches. cbn [scan_nodes get bind].
  destruct (match assoc "implementation" d with
            | Some x => x | None => JStr "" end) as [| | |impl| |];
    try discriminate.
  cbn [upper_of bind]. rewrite upper_is_LND.
  destruct (caseless_eq impl "LND"); cbn [negb andb].
  - destruct (match assoc "name" d with
              | Some x => x | None => JStr "" end) as [| | |nm| |];
      try discriminate.
    cbn [lower_of bind]. fold (caseless_eq nm n).
    destruct (caseless_eq nm n); cbn [negb].
    + intros H. right. split; [reflexivity|].
      destruct (node_result w net (JDict d) (JStr nm)) as [p|e] eqn:E;
        [|discriminate].
      injection H as <-. now exists nm, p.
    + intros H. now left.
  - intros H. left. split; [|exact H].
    now destruct (match assoc "name" d with
                  | Some x => x | None => JStr "" end).
Qed.

(** A result of the inner loop comes from the first matching entry. *)
Lemma scan_nodes_some (w : world) (n : string) (net : json)
  (l : list json) (p : polar_node) :
  scan_nodes w n net l = Return (Some p) ->
  exists pre node post nm,
    l = (pre ++ node :: post)%list /\
    Forall (fun x => matches n x = false) pre /\
    matches n node = true /\
    get node "name" (JStr "") = Return (JStr nm) /\
    node_result w net node (JStr nm) = Return p.
Proof.
  induction l as [|node l IH]; [discriminate|].
  intros H. apply scan_nodes_cons_inv in H.
  destruct H as [[Hm H]|[Hm (nm & q & Hn & Hr & E)]].
  - destruct (IH H) as (pre & x & post & nm & -> & Hf & Hx & Hn & Hr).
    exists (node :: pre), x, post, nm. repeat split; auto.
  - injection E as <-. exists [], node, l, nm. repeat split; auto.
Qed.

(** When the inner loop finds nothing, no entry matched. *)
Lemma scan_nodes_none (w : world) (n : string) (net : json)
  (l : list json) :
  scan_nodes w n net l = Return None ->
  Forall (fun x => matches n x = false) l.
Proof.
  induction l as [|node l IH]; [constructor|].
  intros H. apply scan_nodes_cons_inv in H.
  destruct H as [[Hm H]|[_ (nm & q & _ & _ & E)]]; [|discriminate].
  constructor; auto.
Qed.

(** Entries that were passed over do not change the outcome. *)
Lemma scan_nodes_app (w : world) (n : string) (net : json)
  (pre l : list json) :
  scan_nodes w n net pre = Return None ->
  scan_nodes w n net (pre ++ l)%list = scan_nodes w n net l.
Proof.
  induction pre as [|node pre IH]; [reflexivity|].
  simpl.
  destruct (get node "implementation" (JStr "")) as [i|]; simpl;
    [|discriminate].
  destruct (get node "name" (JStr "")) as [m|]; simpl; [|discriminate].
  destruct (upper_of i) as [u|]; simpl; [|discriminate].
  destruct (negb (String.eqb u "LND")); [exact IH|].
  destruct (lower_of m) as [lo|]; simpl; [|discriminate].
  destruct (negb (String.eqb lo (lower n))); [exact IH|].
  destruct (node_result w net node m); simpl; discriminate.
Qed.

(** A matching entry at the head decides the outcome. *)
Lemma scan_nodes_match (w : world) (n : string) (net node : json)
  (rest : list json) (nm : string) :
  matches n node = true ->
  get node "name" (JStr "") = Return (JStr nm) ->
  scan_nodes w n net (node :: rest) =
  (p <- node_result w net node (JStr nm) ;; Return (Some p)).
Proof.
  unfold matches. intros Hm Hn. cbn [scan_nodes]. rewrite Hn in *.
  destruct (get node "implementation" (JStr "")) as [[| | |impl| |]|];
    try discriminate.
  cbn [bind upper_of lower_of]. rewrite upper_is_LND.
  apply andb_true_iff in Hm. destruct Hm as [H1 H2].
  rewrite H1. cbn [negb]. fold (caseless_eq nm n). rewrite H2.
  reflexivity.
Qed.

Lemma scan_network_eq (w : world) (n : string) (net : json) :
  scan_network w n net =
  (l <- lightning_nodes net ;; scan_nodes w n net l).
Proof.
  unfold scan_network, lightning_nodes.
  destruct (get net "nodes" (JDict [])) as [nodes|]; simpl; [|reflexivity].
  destruct (get nodes "lightning" (JList [])) as [l|]; simpl;
    [|reflexivity].
  now destruct (iter l).
Qed.

(** A result of the outer loop comes from the first network, in the
    order given, that has a matching entry. *)
Lemma scan_networks_some (w : world) (n : string) (nets : list json)
  (p : polar_node) :
  scan_networks w n nets = Return (Some p) ->
  exists before net after,
    nets = (before ++ net :: after)%list /\
    Forall (fun x => scan_network w n x = Return None) before /\
    scan_network w n net = Return (Some p).
Proof.
  induction nets as [|net nets IH]; [discriminate|].
  simpl. destruct (scan_network w n net) as [[q|]|e] eqn:E; simpl;
    [| |discriminate].
  - intros H. injection H as <-. now exists [], net, nets.
  - intros H. destruct (IH H) as (before & x & after & -> & Hf & Hx).
    exists (net :: before), x, after. repeat split; auto.
Qed.

(** *** Reading the descriptor *)

Lemma find_polar_node_missing (w : world) (n : string) :
  path_exists w (POLAR_NETWORKS_FILE w) = false ->
  find_polar_node w n = ([Exists (POLAR_NETWORKS_FILE w)], Return None).
Proof. intros H. unfold find_polar_node, os_path_exists. simpl. now rewrite H. Qed.

Lemma find_polar_node_loaded (w : world) (n : string) (data : json) :
  path_exists w (POLAR_NETWORKS_FILE w) = true ->
  load_json w (POLAR_NETWORKS_FILE w) = Return data ->
  find_polar_node w n =
  ([Exists (POLAR_NETWORKS_FILE w); Open (POLAR_NETWORKS_FILE w)],
   find_in_data w n data).
Proof.
  intros He Hl. unfold find_polar_node, os_path_exists, open_json_load.
  simpl. rewrite He, Hl. reflexivity.
Qed.

Lemma find_polar_node_failed (w : world) (n : string) (e : exn) :
  path_exists w (POLAR_NETWORKS_FILE w) = true ->
  load_json w (POLAR_NETWORKS_FILE w) = Raise e ->
  find_polar_node w n =
  ([Exists (POLAR_NETWORKS_FILE w); Open (POLAR_NETWORKS_FILE w)],
   if (is_JSONDecodeError e || is_OSError e)%bool
   then Return None else Raise e).
Proof.
  intros He Hl. unfold find_polar_node, os_path_exists, open_json_load.
  simpl. rewrite He, Hl. simpl.
  now destruct (is_JSONDecodeError e || is_OSError e)%bool.
Qed.

Lemma auto_detect_fallthrough (w : world) (n : string) :
  (truthy_str (environ w "LND_DIR")
   && truthy_str (environ w "REST_HOST"))%bool = false ->
  auto_detect w n = descriptor_detection w n.
Proof. intros H. unfold auto_detect. now rewrite H. Qed.

Lemma outcome_descriptor_detection (w : world) (n : string) :
  outcome (descriptor_detection w n) =
  match outcome (find_polar_node w n) with
  | Return (Some p) => Return (Some (lnd_dir p), Some (rest_host p))
  | Return None => Return (None, None)
  | Raise e => Raise e
  end.
Proof.
  unfold descriptor_detection, outcome, io_bind.
  destruct (find_polar_node w n) as [t [[p|]|e]]; reflexivity.
Qed.

(** *** Worlds that differ in the override variables only *)

Section SameFiles.
Variables w w' : world.
Hypothesis same_home : forall p, expanduser w p = expanduser w' p.
Hypothesis same_exists : forall p, path_exists w p = path_exists w' p.
Hypothesis same_load : forall p, load_json w p = load_json w' p.

Lemma node_result_same (net node nm : json) :
  node_result w net node nm = node_result w' net node nm.
Proof.
  unfold node_result.
  destruct (get net "path" (JStr "")) as [pth|]; simpl; [|reflexivity].
  destruct (negb (truthy pth)); [|reflexivity].
  destruct (get net "id" (JStr "")) as [i|]; simpl; [|reflexivity].
  now rewrite same_home.
Qed.

Lemma scan_nodes_same (n : string) (net : json) (l : list json) :
  scan_nodes w n net l = scan_nodes w' n net l.
Proof.
  induction l as [|node l IH]; [reflexivity|].
  simpl. rewrite IH.
  destruct (get node "implementation" (JStr "")) as [i|]; simpl;
    [|reflexivity].
  destruct (get node "name" (JStr "")) as [m|]; simpl; [|reflexivity].
  destruct (upper_of i) as [u|]; simpl; [|reflexivity].
  destruct (negb (String.eqb u "LND")); [reflexivity|].
  destruct (lower_of m) as [lo|]; simpl; [|reflexivity].
  destruct (negb (String.eqb lo (lower n))); [reflexivity|].
  now rewrite node_result_same.
Qed.

Lemma scan_networks_same (n : string) (nets : list json) :
  scan_networks w n nets = scan_networks w' n nets.
Proof.
  induction nets as [|net nets IH]; [reflexivity|].
  simpl. rewrite IH. unfold scan_network.
  destruct (get net "nodes" (JDict [])) as [nodes|]; simpl; [|reflexivity].
  destruct (get nodes "lightning" (JList [])) as [l|]; simpl;
    [|reflexivity].
  destruct (iter l) as [items|]; simpl; [|reflexivity].
  now rewrite scan_nodes_same.
Qed.

Lemma find_in_data_same (n : string) (data : json) :
  find_in_data w n data = find_in_data w' n data.
Proof.
  unfold find_in_data.
  destruct (get data "networks" (JList [])) as [nets|]; simpl;
    [|reflexivity].
  destruct (negb (truthy nets)); [reflexivity|].
  destruct (iter nets) as [items|]; simpl; [|reflexivity].
  destruct (sorted_reverse sort_key items) as [s|]; simpl; [|reflexivity].
  apply scan_networks_same.
Qed.

Lemma find_polar_node_same (n : string) :
  find_polar_node w n = find_polar_node w' n.
Proof.
  assert (P : POLAR_NETWORKS_FILE w = POLAR_NETWORKS_FILE w')
    by apply same_home.
  destruct (path_exists w (POLAR_NETWORKS_FILE w)) eqn:He.
  - destruct (load_json w (POLAR_NETWORKS_FILE w)) as [data|e] eqn:Hl.
    + rewrite (find_polar_node_loaded w n data He Hl).
      rewrite same_exists, P in He. rewrite same_load, P in Hl.
      rewrite (find_polar_node_loaded w' n data He Hl).
      now rewrite P, find_in_data_same.
    + rewrite (find_polar_node_failed w n e He Hl).
      rewrite same_exists, P in He. rewrite same_load, P in Hl.
      rewrite (find_polar_node_failed w' n e He Hl).
      now rewrite P.
  - rewrite (find_polar_node_missing w n He).
    rewrite same_exists, P in He.
    rewrite (find_polar_node_missing w' n He).
    now rewrite P.
Qed.

End SameFiles.

Lemma expanduser_unset_overrides (w : world) (p : string) :
  expanduser (unset_overrides w) p = expanduser w p.
Proof. reflexivity. Qed.

Lemma descriptor_detection_unset_overrides (w : world) (n : string) :
  descriptor_detection (unset_overrides w) n = descriptor_detection w n.
Proof.
  unfold descriptor_detection.
  now rewrite (find_polar_node_same (unset_overrides w) w).
Qed.

Lemma auto_detect_unset_overrides (w : world) (n : string) :
  auto_detect (unset_overrides w) n = descriptor_detection w n.
Proof.
  rewrite auto_detect_fallthrough by reflexivity.
  apply descriptor_detection_unset_overrides.
Qed.

(** *** The selection order *)

Lemma sort_key_eq (net : json) :
  sort_key net =
  (i <- numeric_id net ;; Return (if started net then 1 else 0, i)).
Proof.
  unfold sort_key, numeric_id, started.
  destruct (get net "status" (JStr "")) as [s|e] eqn:Es; simpl.
  - destruct (get net "id" (JInt 0)) as [i|]; simpl; [|reflexivity].
    now destruct (int i).
  - destruct net; simpl in *; congruence.
Qed.

Lemma sort_key_total (net : json) (i : Z) :
  numeric_id net = Return i -> exists k, sort_key net = Return k.
Proof. intros H. rewrite sort_key_eq, H. simpl. now eexists. Qed.


Lemma find_in_data_scan (w : world) (n : string) (data nets : json)
  (items order : list json) :
  get data "networks" (JList []) = Return nets ->
  truthy nets = true ->
  iter nets = Return items ->
  sorted_reverse sort_key items = Return order ->
  find_in_data w n data = scan_networks w n order.
Proof.
  intros Hg Ht Hi Hs. unfold find_in_data.
  rewrite Hg. simpl. rewrite Ht. simpl. rewrite Hi. simpl.
  now rewrite Hs.
Qed.


(** *** What a returned node is made of *)

Lemma node_result_inv (w : world) (net node : json) (nm : string)
  (p : polar_node) :
  node_result w net node (JStr nm) = Return p ->
  name p = nm /\
  (exists a, lnd_dir p = join a ["volumes"; "lnd"; nm]) /\
  rest_host p = "https://127.0.0.1:" ++ str (rest_port p).
Proof.
  unfold node_result.
  destruct (get net "path" (JStr "")) as [pth|]; simpl; [|discriminate].
  destruct (_ : result json) as [pth'|]; simpl; [|discriminate].
  destruct (fspath pth') as [a|]; simpl; [|discriminate].
  destruct (get node "ports" (JDict [])) as [ports|]; simpl; [|discriminate].
  destruct (get ports "rest" (JInt 8082)) as [rp|]; simpl; [|discriminate].
  destruct (get net "name" (JStr "unknown")) as [nn|]; simpl;
    [|discriminate].
  intros H. injection H as <-. simpl. repeat split. now exists a.
Qed.

(** A node is returned only after the file was found and loaded, its
    networks sorted, and the sorted networks scanned. *)
Lemma find_polar_node_some (w : world) (n : string) (p : polar_node) :
  outcome (find_polar_node w n) = Return (Some p) ->
  exists data nets items order,
    path_exists w (POLAR_NETWORKS_FILE w) = true /\
    load_json w (POLAR_NETWORKS_FILE w) = Return data /\
    get data "networks" (JList []) = Return nets /\
    truthy nets = true /\
    iter nets = Return items /\
    sorted_reverse sort_key items = Return order /\
    scan_networks w n order = Return (Some p).
Proof.
  destruct (path_exists w (POLAR_NETWORKS_FILE w)) eqn:He.
  2:{ rewrite (find_polar_node_missing w n He). discriminate. }
  destruct (load_json w (POLAR_NETWORKS_FILE w)) as [data|e] eqn:Hl.
  2:{ rewrite (find_polar_node_failed w n e He Hl). unfold outcome. simpl.
      destruct (is_JSONDecodeError e || is_OSError e)%bool; discriminate. }
  rewrite (find_polar_node_loaded w n data He Hl).
  unfold outcome, find_in_data. simpl.
  destruct (get data "networks" (JList [])) as [nets|] eqn:Hg; simpl;
    [|discriminate].
  destruct (truthy nets) eqn:Ht; simpl; [|discriminate].
  destruct (iter nets) as [items|] eqn:Hi; simpl; [|discriminate].
  destruct (sorted_reverse sort_key items) as [order|] eqn:Hs; simpl;
    [|discriminate].
  intros H. exists data, nets, items, order. repeat split; auto.
Qed.

(** The returned node is the first match: the networks scanned before
    its network hold no matching entry, and neither do the entries
    before it in its own network. *)
Lemma scan_networks_first_match (w : world) (n : string)
  (order : list json) (p : polar_node) :
  scan_networks w n order = Return (Some p) ->
  exists before net after pre node post nm,
    order = (before ++ net :: after)%list /\
    lightning_nodes net = Return (pre ++ node :: post)%list /\
    matches n node = true /\
    get node "name" (JStr "") = Return (JStr nm) /\
    node_result w net node (JStr nm) = Return p /\
    Forall (fun x => matches n x = false) pre /\
    Forall (fun net' =>
              exists l, lightning_nodes net' = Return l /\
                        Forall (fun x => matches n x = false) l) before.
Proof.
  intros H. apply scan_networks_some in H.
  destruct H as (before & net & after & -> & Hb & Hn).
  rewrite scan_network_eq in Hn.
  destruct (lightning_nodes net) as [l|] eqn:El; simpl in Hn;
    [|discriminate].
  apply scan_nodes_some in Hn.
  destruct Hn as (pre & node & post & nm & -> & Hpre & Hm & Hnm & Hr).
  exists before, net, after, pre, node, post, nm.
  repeat split; auto.
  eapply Forall_impl; [|exact Hb].
  intros net' H'. cbv beta in H'. rewrite scan_network_eq in H'.
  destruct (lightning_nodes net') as [l'|]; simpl in H'; [|discriminate].
  exists l'. split; [reflexivity|]. now apply scan_nodes_none in H'.
Qed.

Lemma matches_inv (n : string) (node : json) :
  matches n node = true ->
  exists impl nm,
    get node "implementation" (JStr "") = Return (JStr impl) /\
    get node "name" (JStr "") = Return (JStr nm) /\
    caseless_eq impl "LND" = true /\ caseless_eq nm n = true.
Proof.
  unfold matches.
  destruct (get node "implementation" (JStr "")) as [[| | |impl| |]|];
    try discriminate.
  destruct (get node "name" (JStr "")) as [[| | |nm| |]|]; try discriminate.
  intros H. apply andb_true_iff in H. now exists impl, nm.
Qed.

(** A returned node has a directory and a URL that are not empty. *)
Lemma find_polar_node_nonempty (w : world) (n : string) (p : polar_node) :
  outcome (find_polar_node w n) = Return (Some p) ->
  lnd_dir p <> "" /\ rest_host p <> "".
Proof.
  intros H. apply find_polar_node_some in H.
  destruct H as (data & nets & items & order & _ & _ & _ & _ & _ & _ & H).
  apply scan_networks_first_match in H.
  destruct H as (before & net & after & pre & node & post & nm
                 & _ & _ & _ & _ & Hr & _).
  apply node_result_inv in Hr. destruct Hr as (_ & [a Ha] & Hh).
  split.
  - rewrite Ha. apply join_volumes_nonempty.
  - rewrite Hh. discriminate.
Qed.

(** *** The requested name counts letter case apart *)

Section SameLower.
Variables (w : world) (n n' : string).
Hypothesis same_lower : lower n = lower n'.





End SameLower.


(** *** Descriptors of the expected shape *)

Lemma expanduser_nonempty (w : world) (p : string) :
  p <> "" -> expanduser w p <> "".
Proof.
  intros Hp. unfold expanduser.
  destruct (negb (startswith p "~")); [exact Hp|].
  destruct (if Nat.eqb _ 1 then _ else _) as [h|]; [|exact Hp].
  destruct (String.eqb _ "") eqn:E; [discriminate|].
  now apply String.eqb_neq.
Qed.

(** The result for a matching node of a network with an explicit or an
    omitted path, and with a configured or an omitted REST port. *)
Lemma node_result_ok (w : world) (dn dnode : list (string * json))
  (nm base : string) (port : json) :
  (assoc "path" dn = Some (JStr base) /\ base <> "") \/
  (assoc "path" dn = None /\
   base = expanduser w ("~/.polar/networks/" ++ str (field dn "id" (JStr "")))) ->
  (exists ports, assoc "ports" dnode = Some (JDict ports) /\
                 assoc "rest" ports = Some port) \/
  ((assoc "ports" dnode = None \/
    exists ports, assoc "ports" dnode = Some (JDict ports) /\
                  assoc "rest" ports = None) /\ port = JInt 8082) ->
  node_result w (JDict dn) (JDict dnode) (JStr nm) =
  Return {| name := nm;
            lnd_dir := join base ["volumes"; "lnd"; nm];
            rest_host := "https://127.0.0.1:" ++ str port;
            rest_port := port;
            network_name := field dn "name" (JStr "unknown") |}.
Proof.
  intros Hpath Hport. unfold node_result, field. cbn [get bind].
  assert (Hp : (network_path <-
                  (if negb (truthy match assoc "path" dn with
                                   | Some x => x | None => JStr "" end)
                   then Return (JStr (expanduser w
                          ("~/.polar/networks/" ++
                           str match assoc "id" dn with
                               | Some x => x | None => JStr "" end)))
                   else Return match assoc "path" dn with
                               | Some x => x | None => JStr "" end) ;;
                fspath network_path) = Return base).
  { destruct Hpath as [[-> Hb] | [-> ->]]; simpl.
    - apply String.eqb_neq in Hb. now rewrite Hb.
    - reflexivity. }
  destruct (if negb _ then _ else _) as [pth|]; simpl in Hp;
    [|discriminate].
  cbn [bind]. rewrite Hp. cbn [bind fspath].
  destruct Hport as [(ports & -> & Hr) | [[-> | (ports & -> & Hr)] ->]];
    cbn [get bind assoc]; rewrite ?Hr; reflexivity.
Qed.

(** Entries of the expected shape that do not match are passed over. *)
Lemma scan_nodes_pass (w : world) (n : string) (net : json)
  (l : list json) :
  Forall (fun x => node_ok x = true /\ matches n x = false) l ->
  scan_nodes w n net l = Return None.
Proof.
  induction 1 as [|node l [Hok Hm] _ IH]; [reflexivity|].
  destruct node as [| | | | |d]; try discriminate.
  unfold node_ok, field in Hok. unfold matches in Hm.
  cbn [scan_nodes get bind] in *.
  destruct (match assoc "implementation" d with
            | Some x => x | None => JStr "" end) as [| | |impl| |];
    try discriminate.
  destruct (match assoc "name" d with
            | Some x => x | None => JStr "" end) as [| | |nm| |];
    try discriminate.
  cbn [upper_of lower_of bind]. rewrite upper_is_LND.
  destruct (caseless_eq impl "LND"); cbn [negb]; [|exact IH].
  fold (caseless_eq nm n). simpl in Hm. rewrite Hm. exact IH.
Qed.

Lemma sorted_reverse_single (x : json) (k : Z * Z) :
  sort_key x = Return k -> sorted_reverse sort_key [x] = Return [x].
Proof.
  intros H. unfold sorted_reverse, decorate. simpl. now rewrite H.
Qed.

(** *** No exception on a descriptor of the expected shape *)

Lemma node_result_total (w : world) (dn : list (string * json))
  (node : json) (nm : string) :
  path_ok dn = true -> node_ok node = true ->
  exists p, node_result w (JDict dn) node (JStr nm) = Return p.
Proof.
  unfold path_ok, field. intros Hp Hn.
  destruct node as [| | | | |d]; try discriminate.
  unfold node_ok, field in Hn.
  apply andb_true_iff in Hn. destruct Hn as [_ Hports].
  unfold node_result. cbn [get bind].
  destruct (match assoc "path" dn with
            | Some x => x | None => JStr "" end) as [| | |pth| |] eqn:E;
    simpl in Hp; try discriminate;
    [ | destruct b; try discriminate
      | destruct (z =? 0) eqn:Ez; try discriminate
      | destruct (truthy (JStr pth))
      | destruct l; try discriminate
      | destruct d0; try discriminate ];
    simpl; rewrite ?Ez; simpl;
    (destruct (match assoc "ports" d with
               | Some x => x | None => JDict [] end) as [| | | | |ports];
     try discriminate; simpl; eexists; reflexivity).
Qed.

Lemma scan_nodes_total (w : world) (n : string)
  (dn : list (string * json)) (l : list json) :
  path_ok dn = true -> forallb node_ok l = true ->
  exists r, scan_nodes w n (JDict dn) l = Return r.
Proof.
  intros Hp. induction l as [|node l IH]; simpl; [now eexists|].
  intros H. apply andb_true_iff in H. destruct H as [Hn Hl].
  specialize (IH Hl).
  pose proof (node_result_total w dn node) as Hres.
  destruct node as [| | | | |d]; try discriminate.
  pose proof Hn as Hn'. unfold node_ok, field in Hn'.
  cbn [get bind].
  destruct (match assoc "implementation" d with
            | Some x => x | None => JStr "" end) as [| | |impl| |];
    try discriminate.
  destruct (match assoc "name" d with
            | Some x => x | None => JStr "" end) as [| | |nm| |];
    try discriminate.
  cbn [upper_of lower_of bind].
  destruct (negb (String.eqb (upper impl) "LND")); [exact IH|].
  destruct (negb (String.eqb (lower nm) (lower n))); [exact IH|].
  destruct (Hres nm Hp Hn) as [p ->]. simpl. now eexists.
Qed.

Lemma network_ok_inv (net : json) :
  network_ok net = true ->
  exists dn l,
    net = JDict dn /\
    (exists i, numeric_id net = Return i) /\
    path_ok dn = true /\
    lightning_nodes net = Return l /\
    forallb node_ok l = true.
Proof.
  destruct net as [| | | | |dn]; try discriminate.
  unfold network_ok. intros H.
  apply andb_true_iff in H. destruct H as [H Hnodes].
  apply andb_true_iff in H. destruct H as [Hid Hpath].
  unfold numeric_id, lightning_nodes, field in *. cbn [get bind].
  destruct (match assoc "nodes" dn with
            | Some x => x | None => JDict [] end) as [| | | | |nd];
    try discriminate.
  cbn [get bind].
  destruct (match assoc "lightning" nd with
            | Some x => x | None => JList [] end) as [| | | |l|];
    try discriminate.
  exists dn, l. repeat split; auto.
  destruct (int _) as [i|]; [now exists i | discriminate].
Qed.

Lemma scan_networks_total (w : world) (n : string) (nets : list json) :
  Forall (fun x => network_ok x = true) nets ->
  exists r, scan_networks w n nets = Return r.
Proof.
  induction 1 as [|net nets Hn _ [r IH]]; simpl; [now eexists|].
  destruct (network_ok_inv net Hn) as (dn & l & -> & _ & Hp & Hl & Hf).
  rewrite scan_network_eq, Hl. cbn [bind].
  destruct (scan_nodes_total w n dn l Hp Hf) as [[p|] ->]; cbn [bind].
  - now eexists.
  - now exists r.
Qed.

Lemma find_in_data_total (w : world) (n : string) (data : json) :
  descriptor_ok data = true ->
  exists r, find_in_data w n data = Return r.
Proof.
  destruct data as [| | | | |d]; try discriminate.
  unfold descriptor_ok, find_in_data, field. cbn [get bind].
  destruct (match assoc "networks" d with
            | Some x => x | None => JList [] end) as [| | | |items|];
    try discriminate.
  intros Hok. rewrite forallb_forall, <- Forall_forall in Hok.
  destruct items as [|x items]; [simpl; now eexists|].
  cbn [truthy negb iter bind].
  assert (Hk : Forall (fun y => exists k, sort_key y = Return k) (x :: items)).
  { eapply Forall_impl; [|exact Hok].
    intros y Hy. destruct (network_ok_inv y Hy) as (_ & _ & _ & [i Hi] & _).
    now apply (sort_key_total y i). }
  destruct (decorate_total sort_key _ Hk) as [ks Hks].
  assert (Hs : sorted_reverse sort_key (x :: items)
               = Return (map snd (sort_desc ks)))
    by (unfold sorted_reverse; now rewrite Hks).
  rewrite Hs. cbn [bind].
  apply scan_networks_total.
  destruct (sorted_reverse_spec sort_key _ _ Hs) as [Hperm _].
  apply (Permutation_Forall Hperm). exact Hok.
Qed.

(** *** Texts that start with another *)

Lemma startswith_app (s t : string) : startswith (s ++ t) s = true.
Proof.
  induction s as [|c s IH]; simpl; [reflexivity|].
  now rewrite Ascii.eqb_refl, IH.
Qed.

Lemma string_app_not_nil_eqb (s t : string) :
  t <> "" -> negb (String.eqb (s ++ t) "") = true.
Proof.
  intros Ht. apply negb_true_iff, String.eqb_neq.
  intros H. apply append_eq_nil in H. tauto.
Qed.

(** *** The node of an entry *)

Lemma node_result_expected (w : world) (d dnode : list (string * json))
  (nm : string) :
  path_ok d = true -> node_ok (JDict dnode) = true ->
  node_result w (JDict d) (JDict dnode) (JStr nm) =
  Return (expected_node w d dnode nm).
Proof.
  unfold path_ok, node_ok, expected_node, base_path, rest_port_of, field.
  intros Hp Hn. apply andb_true_iff in Hn. destruct Hn as [_ Hports].
  unfold node_result. cbn [get bind].
  destruct (match assoc "ports" dnode with
            | Some x => x | None => JDict [] end) as [| | | | |ports];
    try discriminate.
  destruct (match assoc "path" d with
            | Some x => x | None => JStr "" end) as [|b|z|pth|l|d0];
    simpl in Hp; try discriminate.
  - reflexivity.
  - destruct b; [discriminate | reflexivity].
  - destruct (z =? 0) eqn:Ez; [|discriminate].
    cbn [truthy]. rewrite Ez. reflexivity.
  - cbn [truthy]. destruct (String.eqb pth ""); reflexivity.
  - destruct l; [reflexivity | discriminate].
  - destruct d0; [reflexivity | discriminate].
Qed.

(** In a network of the expected shape, the first matching entry
    decides the scan of the network. *)
Lemma scan_network_expected (w : world) (n : string)
  (d dnode : list (string * json)) (nm : string) :
  network_ok (JDict d) = true ->
  first_entry n (JDict d) dnode nm ->
  scan_network w n (JDict d) = Return (Some (expected_node w d dnode nm)).
Proof.
  intros Hok (pre & post & Hl & Hpre & Hm & Hnm).
  destruct (network_ok_inv _ Hok) as (d' & l & E & _ & Hp & Hl' & Hf).
  injection E as <-.
  assert (l = (pre ++ JDict dnode :: post)%list) by congruence. subst l.
  rewrite forallb_forall in Hf.
  rewrite scan_network_eq, Hl. cbn [bind].
  rewrite scan_nodes_app.
  - rewrite (scan_nodes_match w n (JDict d) (JDict dnode) post nm Hm).
    + rewrite node_result_expected; [reflexivity | exact Hp |].
      apply Hf. apply in_or_app. right. now left.
    + cbn [get]. fold (field dnode "name" (JStr "")). now rewrite Hnm.
  - apply scan_nodes_pass. rewrite Forall_forall in *. intros x Hx.
    split; [|now apply Hpre].
    apply Hf. apply in_or_app. now left.
Qed.




(** C2. The overrides count as a pair only. With both variables set to
    non-empty values, [auto_detect] returns them (the directory through
    [expanduser], so unchanged unless it starts with a tilde) and
    touches no file: its trace is empty, whatever the descriptor file
    holds. With one of them not set, the outcome is that of detection
    from the descriptor, the same as if neither were set. *)
Theorem env_override_pair (w : world) (n : string) :
  (forall d h,
      environ w "LND_DIR" = Some d -> d <> "" ->
      environ w "REST_HOST" = Some h -> h <> "" ->
      auto_detect w n = ([], Return (Some (expanduser w d), Some h)) /\
      (startswith d "~" = false -> expanduser w d = d)) /\
  (environ w "LND_DIR" = None \/ environ w "REST_HOST" = None ->
   auto_detect w n = descriptor_detection w n /\
   auto_detect w n = auto_detect (unset_overrides w) n).
Proof.
  split.
  - intros d h Hd Hd' Hh Hh'. split.
    + unfold auto_detect. rewrite Hd, Hh. simpl.
      apply String.eqb_neq in Hd', Hh'. now rewrite Hd', Hh'.
    + intros Hs. unfold expanduser. now rewrite Hs.
  - intros H.
    assert (E : auto_detect w n = descriptor_detection w n).
    { apply auto_detect_fallthrough.
      destruct H as [-> | ->]; [reflexivity | apply andb_false_r]. }
    split; [exact E|].
    now rewrite E, auto_detect_unset_overrides.
Qed.

Lemma env_override_pair_witness :
  auto_detect Examples.both_set "bob" =
  ([], Return (Some "/home/dev/lnd-data", Some "https://10.0.0.5:8080")) /\
  auto_detect Examples.only_dir "bob" =
  descriptor_detection Examples.only_dir "bob".
Proof.
  split.
  - apply (proj1 (env_override_pair Examples.both_set "bob")
             "~/lnd-data" "https://10.0.0.5:8080");
      [reflexivity | discriminate | reflexivity | discriminate].
  - apply (proj2 (env_override_pair Examples.only_dir "bob")).
    right. reflexivity.
Defined.

(** C3, as the code has it. Without a full override, a missing
    descriptor file, a file whose loading raises a JSON decoding error
    and a descriptor that is a JSON object with no network all give
    (absent, absent). *)
Theorem nothing_detected (w : world) (n : string) :
  (truthy_str (environ w "LND_DIR")
   && truthy_str (environ w "REST_HOST"))%bool = false ->
  path_exists w (POLAR_NETWORKS_FILE w) = false \/
  (path_exists w (POLAR_NETWORKS_FILE w) = true /\
   load_json w (POLAR_NETWORKS_FILE w) = Raise JSONDecodeError) \/
  (path_exists w (POLAR_NETWORKS_FILE w) = true /\
   exists data,
     load_json w (POLAR_NETWORKS_FILE w) = Return data /\
     no_networks data) ->
  outcome (auto_detect w n) = Return (None, None).
Proof.
  intros Henv H.
  rewrite (auto_detect_fallthrough w n Henv), outcome_descriptor_detection.
  destruct H as [He | [[He Hl] | [He (data & Hl & d & -> & Hd)]]].
  - now rewrite (find_polar_node_missing w n He).
  - now rewrite (find_polar_node_failed w n _ He Hl).
  - rewrite (find_polar_node_loaded w n _ He Hl).
    unfold outcome, find_in_data. simpl.
    now destruct Hd as [-> | ->].
Qed.

Lemma nothing_detected_witness :
  outcome (auto_detect Examples.no_file "bob") = Return (None, None) /\
  outcome (auto_detect Examples.empty_descriptor "bob") = Return (None, None).
Proof.
  split.
  - apply nothing_detected; [reflexivity | left; reflexivity].
  - apply nothing_detected; [reflexivity|].
    right. right. split; [reflexivity|].
    exists (Examples.descriptor []). split; [reflexivity|].
    exists [("networks", JList [])]. split; [reflexivity|].
    right. reflexivity.
Defined.

(** C3 as stated fails for a file that parses to a value that is not
    a JSON object and so holds no network: for the empty list and for
    null, [data.get] raises [AttributeError], which resolution passes
    on instead of returning (absent, absent). *)
Lemma list_or_null_descriptor_raises :
  load_json Examples.list_descriptor
    (POLAR_NETWORKS_FILE Examples.list_descriptor) = Return (JList []) /\
  outcome (auto_detect Examples.list_descriptor "bob")
  = Raise AttributeError /\
  load_json Usage.null_descriptor
    (POLAR_NETWORKS_FILE Usage.null_descriptor) = Return JNull /\
  outcome (auto_detect Usage.null_descriptor "bob") = Raise AttributeError.
Proof. repeat split. Qed.

(** C5. A node that [find_polar_node] returns is built from an entry
    whose implementation is "LND" and whose name is the requested one,
    both letter case apart, and that entry is the first such one: no
    entry before it in its network matches, and no entry of a network
    that the selection order puts before its network does
    ([first_match]). *)
Theorem first_match_invariant (w : world) (n : string) (p : polar_node) :
  outcome (find_polar_node w n) = Return (Some p) -> first_match w n p.
Proof.
  intros H. apply find_polar_node_some in H.
  destruct H as (data & nets & items & order & _ & Hl & Hg & _ & Hi & Hs & H).
  apply scan_networks_first_match in H.
  destruct H as (before & net & after & pre & node & post & nm
                 & Ho & Hln & Hm & Hnm & Hr & Hpre & Hbefore).
  destruct (matches_inv n node Hm) as (impl & nm' & Hi' & Hn' & Hc1 & Hc2).
  assert (nm' = nm) by congruence. subst nm'.
  unfold first_match.
  exists data, nets, items, order, before, net, after, pre, node, post,
    impl, nm.
  repeat split; assumption.
Qed.

Lemma first_match_invariant_witness :
  first_match Examples.two_networks "bob"
    {| name := "bob"; lnd_dir := "/srv/polar/1/volumes/lnd/bob";
       rest_host := "https://127.0.0.1:8081";
       rest_port := JInt 8081; network_name := JStr "regtest" |}.
Proof. apply first_match_invariant. reflexivity. Defined.

(** C9. An override variable set to the empty text counts as not set:
    when either of the two is empty, [auto_detect] is detection from the
    descriptor, the same as if neither were set, and no empty text is
    returned as a directory or a URL. *)
Theorem empty_override_is_unset (w : world) (n : string) :
  environ w "LND_DIR" = Some "" \/ environ w "REST_HOST" = Some "" ->
  auto_detect w n = descriptor_detection w n /\
  auto_detect w n = auto_detect (unset_overrides w) n /\
  (forall d h, outcome (auto_detect w n) = Return (d, h) ->
               d <> Some "" /\ h <> Some "").
Proof.
  intros H.
  assert (E : auto_detect w n = descriptor_detection w n).
  { apply auto_detect_fallthrough.
    destruct H as [-> | ->]; [reflexivity | apply andb_false_r]. }
  split; [exact E|]. split.
  - now rewrite E, auto_detect_unset_overrides.
  - intros d h. rewrite E, outcome_descriptor_detection.
    destruct (outcome (find_polar_node w n)) as [[p|]|e] eqn:Ep;
      [| |discriminate].
    + destruct (find_polar_node_nonempty w n p Ep) as [Hd Hh].
      intros Hr. injection Hr as <- <-. split; congruence.
    + intros Hr. injection Hr as <- <-. split; discriminate.
Qed.

Lemma empty_override_is_unset_witness :
  auto_detect Examples.empty_host "bob" =
  descriptor_detection Examples.empty_host "bob".
Proof.
  apply (empty_override_is_unset Examples.empty_host "bob").
  right. reflexivity.
Defined.



(** C4, as the code has it. With one network, of numeric identifier,
    and one matching entry in it (the entries before it being of the
    expected shape), the directory is
    [os.path.join(base, "volumes", "lnd", name)], where [base] is the
    explicit path of the network or, when the descriptor omits it, the
    expansion of [~/.polar/networks/<id>]; this is
    [<base>/volumes/lnd/<name>] when [base] does not end in a slash and
    the name does not start with one. The URL is
    [https://127.0.0.1:<port>] with the configured REST port, or 8082
    when none is configured. *)
Theorem single_network_result (w : world) (n : string) (data : json)
  (dn dnode : list (string * json)) (pre post : list json)
  (impl nm base : string) (port : json) :
  (truthy_str (environ w "LND_DIR")
   && truthy_str (environ w "REST_HOST"))%bool = false ->
  path_exists w (POLAR_NETWORKS_FILE w) = true ->
  load_json w (POLAR_NETWORKS_FILE w) = Return data ->
  get data "networks" (JList []) = Return (JList [JDict dn]) ->
  (exists i, numeric_id (JDict dn) = Return i) ->
  lightning_nodes (JDict dn) = Return (pre ++ JDict dnode :: post)%list ->
  Forall (fun x => node_ok x = true /\ matches n x = false) pre ->
  Forall (fun x => matches n x = false) post ->
  field dnode "implementation" (JStr "") = JStr impl ->
  caseless_eq impl "LND" = true ->
  field dnode "name" (JStr "") = JStr nm ->
  caseless_eq nm n = true ->
  (assoc "path" dn = Some (JStr base) /\ base <> "") \/
  (assoc "path" dn = None /\
   base = expanduser w ("~/.polar/networks/" ++ str (field dn "id" (JStr "")))) ->
  (exists ports, assoc "ports" dnode = Some (JDict ports) /\
                 assoc "rest" ports = Some port) \/
  ((assoc "ports" dnode = None \/
    exists ports, assoc "ports" dnode = Some (JDict ports) /\
                  assoc "rest" ports = None) /\ port = JInt 8082) ->
  outcome (auto_detect w n) =
  Return (Some (join base ["volumes"; "lnd"; nm]),
          Some ("https://127.0.0.1:" ++ str port)) /\
  (endswith base "/" = false -> startswith nm "/" = false ->
   join base ["volumes"; "lnd"; nm] = base ++ "/volumes/lnd/" ++ nm).
Proof.
  intros Henv He Hl Hg [i Hid] Hln Hpre _ Himpl Hc1 Hname Hc2 Hpath Hport.
  split.
  - rewrite (auto_detect_fallthrough w n Henv), outcome_descriptor_detection.
    rewrite (find_polar_node_loaded w n data He Hl). unfold outcome. simpl.
    destruct (sort_key_total (JDict dn) i Hid) as [k Hk].
    rewrite (find_in_data_scan w n data (JList [JDict dn]) [JDict dn]
               [JDict dn] Hg eq_refl eq_refl
               (sorted_reverse_single _ k Hk)).
    cbn [scan_networks]. rewrite scan_network_eq, Hln. cbn [bind].
    rewrite (scan_nodes_app w n (JDict dn) pre _
               (scan_nodes_pass w n (JDict dn) pre Hpre)).
    rewrite (scan_nodes_match w n (JDict dn) (JDict dnode) post nm).
    + now rewrite (node_result_ok w dn dnode nm base port Hpath Hport).
    + unfold matches. cbn [get]. fold (field dnode "implementation" (JStr "")).
      fold (field dnode "name" (JStr "")).
      now rewrite Himpl, Hname, Hc1, Hc2.
    + cbn [get]. fold (field dnode "name" (JStr "")). now rewrite Hname.
  - intros Hend Hstart. apply join_volumes_plain; auto.
    destruct Hpath as [[_ Hb] | [_ ->]]; [exact Hb|].
    apply expanduser_nonempty. discriminate.
Qed.

Lemma single_network_result_witness :
  outcome (auto_detect Examples.capital_bob "bob") =
  Return (Some "/srv/polar/3/volumes/lnd/Bob", Some "https://127.0.0.1:8083").
Proof.
  refine (proj1 (single_network_result Examples.capital_bob "bob"
                   (Examples.descriptor
                      [Examples.network 3 "Started" "/srv/polar/3"
                         [Examples.lnd_node "Bob" 8083]])
                   _ _ [] [] "LND" "Bob" "/srv/polar/3" (JInt 8083)
                   eq_refl eq_refl eq_refl eq_refl _ eq_refl _ _
                   eq_refl eq_refl eq_refl eq_refl _ _)).
  - now exists 3.
  - constructor.
  - constructor.
  - left. split; [reflexivity | discriminate].
  - left. exists [("rest", JInt 8083)]. split; reflexivity.
Defined.

(** C4 as stated fails for a name that starts with a slash:
    [os.path.join] then drops the network path, and the directory is the
    name alone. *)
Lemma single_network_counterexample :
  outcome (auto_detect Examples.slash_name "/bob") =
  Return (Some "/bob", Some "https://127.0.0.1:8081") /\
  "/bob" <> "/srv/polar/1" ++ "/volumes/lnd/" ++ "/bob".
Proof. split; [reflexivity | discriminate]. Qed.

(** C6, as the code has it. Resolution returns normally when the file
    is missing, when loading it raises an I/O or a JSON decoding error,
    and when it holds a descriptor of the expected shape
    ([descriptor_ok]); in the first two cases, without a full override,
    the outcome is (absent, absent). *)
Theorem resolution_total_on_schema (w : world) (n : string) :
  path_exists w (POLAR_NETWORKS_FILE w) = false \/
  (exists e, load_json w (POLAR_NETWORKS_FILE w) = Raise e /\
             (is_JSONDecodeError e || is_OSError e)%bool = true) \/
  (exists data, load_json w (POLAR_NETWORKS_FILE w) = Return data /\
                descriptor_ok data = true) ->
  exists r,
    outcome (auto_detect w n) = Return r /\
    ((truthy_str (environ w "LND_DIR")
      && truthy_str (environ w "REST_HOST"))%bool = false ->
     path_exists w (POLAR_NETWORKS_FILE w) = false \/
     (exists e, load_json w (POLAR_NETWORKS_FILE w) = Raise e) ->
     r = (None, None)).
Proof.
  intros H.
  destruct (truthy_str (environ w "LND_DIR")
            && truthy_str (environ w "REST_HOST"))%bool eqn:Henv.
  { unfold auto_detect. rewrite Henv. eexists. split; [reflexivity|].
    discriminate. }
  rewrite (auto_detect_fallthrough w n Henv), outcome_descriptor_detection.
  destruct (path_exists w (POLAR_NETWORKS_FILE w)) eqn:He.
  2:{ rewrite (find_polar_node_missing w n He). simpl.
      eexists. split; reflexivity. }
  destruct H as [H | [(e & Hl & Hc) | (data & Hl & Hok)]];
    [discriminate | |].
  - rewrite (find_polar_node_failed w n e He Hl), Hc. simpl.
    eexists. split; reflexivity.
  - rewrite (find_polar_node_loaded w n data He Hl). unfold outcome. simpl.
    destruct (find_in_data_total w n data Hok) as [[p|] ->];
      eexists; (split; [reflexivity|]);
      intros _ [Hno | [e Hno]]; congruence.
Qed.

Lemma resolution_total_on_schema_witness :
  exists r, outcome (auto_detect Examples.two_networks "bob") = Return r.
Proof.
  destruct (resolution_total_on_schema Examples.two_networks "bob")
    as [r [Hr _]].
  - right. right.
    exists (Examples.descriptor [Examples.stopped7; Examples.started1]).
    split; reflexivity.
  - now exists r.
Defined.

(** C6 as stated fails on a descriptor that is well-formed JSON of
    another shape: for a top-level list, [data.get] raises
    [AttributeError], which [auto_detect] passes on to its caller. *)
Lemma resolution_raises_on_list :
  load_json Examples.list_descriptor
    (POLAR_NETWORKS_FILE Examples.list_descriptor) = Return (JList []) /\
  outcome (auto_detect Examples.list_descriptor "bob") = Raise AttributeError.
Proof. split; reflexivity. Qed.

(** C7, as the code has it. When opening the token file fails because
    there is no such file ([FileNotFoundError]), building the client
    succeeds and leaves the token unset; every request of that client
    then fails before any exchange with the server (its trace is empty)
    with a [ConnectionError] whose message names the directory of the
    client. *)
Theorem missing_token (w : world) (c : LndClient.constants)
  (lnd_dir rest_host : option string) :
  read_bytes w
    (join (or_else lnd_dir (LndClient.LND_DIR c))
       ["data"; "chain"; "bitcoin"; "regtest"; "admin.macaroon"])
  = Raise FileNotFoundError ->
  exists self,
    outcome (LndClient.__init__ w c lnd_dir rest_host) = Return self /\
    LndClient.macaroon self = None /\
    LndClient.lnd_dir self = or_else lnd_dir (LndClient.LND_DIR c) /\
    forall method endpoint data,
    exists msg,
      LndClient._request w self method endpoint data =
      ([], Raise (ConnectionError msg)) /\
      contains msg (LndClient.lnd_dir self).
Proof.
  intros H. unfold LndClient.__init__, open_rb_read. rewrite H. simpl.
  eexists. split; [reflexivity|]. split; [reflexivity|].
  split; [reflexivity|].
  intros method endpoint data. unfold LndClient._request. simpl.
  eexists. split; [reflexivity|].
  now exists "LND not found at ",
    (". " ++ "Make sure your LND node is set up. "
          ++ "If using Polar, make sure it's running with a node named 'bob'.").
Qed.

Lemma missing_token_witness :
  exists self,
    outcome (LndClient.__init__ Examples.no_file Examples.defaults
               (Some "/srv/polar/1/volumes/lnd/bob") None) = Return self /\
    LndClient.macaroon self = None.
Proof.
  destruct (missing_token Examples.no_file Examples.defaults
              (Some "/srv/polar/1/volumes/lnd/bob") None eq_refl)
    as (self & Hi & Hm & _).
  now exists self.
Defined.

(** C7 as stated fails when the token file is absent because a
    component of its path is a regular file: opening it raises
    [NotADirectoryError], which only [FileNotFoundError] being
    forgiven, makes the construction of the client fail. *)
Lemma absent_token_below_a_file :
  path_exists Usage.data_is_a_file
    (Usage.macaroon_path "/srv/polar/1/volumes/lnd/bob") = false /\
  read_bytes Usage.data_is_a_file
    (Usage.macaroon_path "/srv/polar/1/volumes/lnd/bob")
  = Raise NotADirectoryError /\
  outcome (LndClient.__init__ Usage.data_is_a_file Examples.defaults
             (Some "/srv/polar/1/volumes/lnd/bob") None)
  = Raise NotADirectoryError.
Proof. repeat split. Qed.

(** C8, as the code has it. A request that is answered with a status
    from 400 to 599 raises an [HTTPError] that carries the response,
    hence its status code and its body, and whose message starts with
    the status code; for status 503 the message contains "503". *)
Theorem http_error_status (w : world) (self : LndClient.LNDClient)
  (method endpoint : string) (data : json) (r : http_request)
  (resp : response) :
  trace (LndClient._request w self method endpoint data) = [Http r] ->
  send w r = Return resp ->
  400 <= status_code resp < 600 ->
  exists msg,
    outcome (LndClient._request w self method endpoint data) =
    Raise (HTTPError msg resp) /\
    startswith msg (str_of_int (status_code resp)) = true /\
    contains msg (str_of_int (status_code resp)) /\
    (status_code resp = 503 -> contains msg "503").
Proof.
  intros Ht Hs Hrange.
  assert (Hraise : exists rest,
             LndClient.raise_for_status resp =
             Raise (HTTPError (str_of_int (status_code resp) ++ rest) resp)).
  { unfold LndClient.raise_for_status.
    destruct ((400 <=? status_code resp) && (status_code resp <? 500))
      eqn:E4.
    - eexists. rewrite string_app_not_nil_eqb by discriminate. reflexivity.
    - assert (E5 : (500 <=? status_code resp) && (status_code resp <? 600)
                   = true).
      { apply andb_false_iff in E4. apply andb_true_iff.
        rewrite Z.leb_le, Z.ltb_lt. rewrite Z.leb_gt, Z.ltb_ge in E4. lia. }
      rewrite E5. eexists.
      rewrite string_app_not_nil_eqb by discriminate. reflexivity. }
  destruct Hraise as [rest Hraise].
  exists (str_of_int (status_code resp) ++ rest).
  assert (Hout : outcome (LndClient._request w self method endpoint data) =
                 Raise (HTTPError (str_of_int (status_code resp) ++ rest) resp)).
  { revert Ht. unfold LndClient._request, requests_send, trace, outcome.
    destruct (negb (truthy_str (LndClient.macaroon self)));
      [discriminate|].
    destruct (String.eqb method "GET");
      [|destruct (String.eqb method "POST");
        [|destruct (String.eqb method "DELETE"); [|discriminate]]];
      (match goal with
       | |- context [send w ?q] =>
           destruct (send w q) as [resp'|e] eqn:Eq; simpl;
           [ destruct (LndClient.raise_for_status resp') eqn:Er; simpl | ];
           intros Hq; injection Hq as Hq; subst r;
           pose proof (eq_trans (eq_sym Eq) Hs) as Hsame;
           [ injection Hsame as ->; rewrite Hraise in Er; discriminate
           | injection Hsame as ->; rewrite Hraise in Er;
             now injection Er as <-
           | discriminate ]
       end). }
  split; [exact Hout|].
  split; [apply startswith_app|].
  split; [now exists "", rest|].
  intros E. rewrite E. now exists "", rest.
Qed.

Lemma http_error_status_witness :
  exists msg,
    outcome (LndClient._request (Examples.server Examples.unavailable)
               Examples.client "GET" "/v1/getinfo" JNull) =
    Raise (HTTPError msg Examples.unavailable) /\
    contains msg "503".
Proof.
  destruct (http_error_status (Examples.server Examples.unavailable)
              Examples.client "GET" "/v1/getinfo" JNull
              _ Examples.unavailable eq_refl eq_refl)
    as (msg & Ho & _ & _ & H503).
  - simpl. lia.
  - exists msg. split; [exact Ho | now apply H503].
Defined.

(** C8 as stated fails for a status that is neither a success nor an
    error for [raise_for_status]: a response with status 300 and a JSON
    body is returned to the caller as a result. *)
Lemma multiple_choices_is_returned :
  send (Examples.server Examples.multiple_choices)
    {| req_method := "GET";
       req_url := "https://localhost:8082/v1/getinfo";
       req_headers := [("Grpc-Metadata-macaroon", "0201036c6e64")];
       req_data := None; req_verify := false |}
  = Return Examples.multiple_choices /\
  status_code Examples.multiple_choices = 300 /\
  LndClient._request (Examples.server Examples.multiple_choices)
    Examples.client "GET" "/v1/getinfo" JNull =
  ([Http {| req_method := "GET";
            req_url := "https://localhost:8082/v1/getinfo";
            req_headers := [("Grpc-Metadata-macaroon", "0201036c6e64")];
            req_data := None; req_verify := false |}],
   Return (JDict [])).
Proof. repeat split. Qed.

(** ** Further properties of the client *)

Import Usage.

Lemma request_without_token (w : world) (self : LndClient.LNDClient)
  (method endpoint : string) (data : json) :
  truthy_str (LndClient.macaroon self) = false ->
  LndClient._request w self method endpoint data =
  ([], Raise (ConnectionError (not_found_message (LndClient.lnd_dir self)))).
Proof. intros H. unfold LndClient._request. now rewrite H. Qed.

(** With a token, a call of a supported method is one exchange: the
    request is sent, and the answer goes through [raise_for_status] and
    [json()]. *)
Lemma request_with_token (w : world) (self : LndClient.LNDClient)
  (method endpoint : string) (data : json) :
  truthy_str (LndClient.macaroon self) = true ->
  supported method = true ->
  exists r,
    LndClient._request w self method endpoint data =
    ([Http r],
     resp <- send w r ;;
     _ <- LndClient.raise_for_status resp ;;
     LndClient.response_json resp) /\
    req_method r = method /\
    req_url r = LndClient.rest_host self ++ endpoint /\
    req_verify r = false /\
    req_headers r =
      (("Grpc-Metadata-macaroon", or_else (LndClient.macaroon self) "")
       :: (if String.eqb method "POST"
           then [("Content-Type", "application/json")] else []))%list /\
    req_data r =
      (if String.eqb method "POST" then Some (LndClient.dumps data)
       else None).
Proof.
  intros Ht Hs. unfold LndClient._request, requests_send. rewrite Ht.
  cbn [negb]. unfold supported in Hs.
  destruct (String.eqb method "GET") eqn:Eg.
  - apply String.eqb_eq in Eg. subst method.
    match goal with |- context [Http ?q] => exists q end.
    split; [|repeat split].
    cbn [io_bind]. destruct (send w _) as [resp|e]; [|reflexivity].
    cbn [bind]. unfold lift.
    destruct (LndClient.raise_for_status resp); reflexivity.
  - destruct (String.eqb method "POST") eqn:Ep.
    + apply String.eqb_eq in Ep. subst method.
      match goal with |- context [Http ?q] => exists q end.
      split; [|repeat split].
      cbn [io_bind]. destruct (send w _) as [resp|e]; [|reflexivity].
      cbn [bind]. unfold lift.
      destruct (LndClient.raise_for_status resp); reflexivity.
    + destruct (String.eqb method "DELETE") eqn:Ed; [|discriminate].
      apply String.eqb_eq in Ed. subst method.
      match goal with |- context [Http ?q] => exists q end.
      split; [|repeat split].
      cbn [io_bind]. destruct (send w _) as [resp|e]; [|reflexivity].
      cbn [bind]. unfold lift.
      destruct (LndClient.raise_for_status resp); reflexivity.
Qed.

Lemma request_unsupported (w : world) (self : LndClient.LNDClient)
  (method endpoint : string) (data : json) :
  truthy_str (LndClient.macaroon self) = true ->
  supported method = false ->
  LndClient._request w self method endpoint data =
  ([], Raise (ValueError ("Unsupported method: " ++ method))).
Proof.
  intros Ht Hs. unfold LndClient._request. rewrite Ht. cbn [negb].
  unfold supported in Hs.
  apply orb_false_iff in Hs. destruct Hs as [Hs Hd].
  apply orb_false_iff in Hs. destruct Hs as [Hg Hp].
  now rewrite Hg, Hp, Hd.
Qed.

(** X1. A method other than GET, POST and DELETE is refused before
    anything is sent: with a token loaded, [_request] raises
    [ValueError] naming the method, and its trace is empty. *)
Theorem unsupported_method_fails_fast (w : world)
  (self : LndClient.LNDClient) (method endpoint : string) (data : json) :
  truthy_str (LndClient.macaroon self) = true ->
  supported method = false ->
  LndClient._request w self method endpoint data =
  ([], Raise (ValueError ("Unsupported method: " ++ method))) /\
  contains ("Unsupported method: " ++ method) method.
Proof.
  intros Ht Hs. split; [now apply request_unsupported|].
  exists "Unsupported method: ", "". now rewrite append_nil_r.
Qed.

Lemma unsupported_method_fails_fast_witness :
  LndClient._request (node_world (Return []) (Return info))
    Examples.client "PUT" "/v1/getinfo" JNull =
  ([], Raise (ValueError "Unsupported method: PUT")).
Proof.
  apply (unsupported_method_fails_fast
           (node_world (Return []) (Return info)) Examples.client
           "PUT" "/v1/getinfo" JNull eq_refl eq_refl).
Defined.

Lemma raise_for_status_passes (resp : response) :
  ~ (400 <= status_code resp < 600) ->
  LndClient.raise_for_status resp = Return tt.
Proof.
  intros H. unfold LndClient.raise_for_status.
  destruct ((400 <=? status_code resp) && (status_code resp <? 500)) eqn:E4.
  { apply andb_true_iff in E4. rewrite Z.leb_le, Z.ltb_lt in E4. lia. }
  destruct ((500 <=? status_code resp) && (status_code resp <? 600)) eqn:E5.
  { apply andb_true_iff in E5. rewrite Z.leb_le, Z.ltb_lt in E5. lia. }
  reflexivity.
Qed.

(** X2. The success path: with a token loaded and a supported method,
    exactly one request is sent, and an answer whose status is outside
    400-599 is handed to [json()]: the parsed body is the result, and a
    body that is not JSON is an error ([JSONDecodeError]), not an empty
    result. *)
Theorem response_is_parsed (w : world) (self : LndClient.LNDClient)
  (method endpoint : string) (data : json) :
  truthy_str (LndClient.macaroon self) = true ->
  supported method = true ->
  exists r,
    trace (LndClient._request w self method endpoint data) = [Http r] /\
    forall resp,
      send w r = Return resp ->
      ~ (400 <= status_code resp < 600) ->
      outcome (LndClient._request w self method endpoint data) =
      match json_body resp with
      | Some v => Return v
      | None => Raise JSONDecodeError
      end.
Proof.
  intros Ht Hs.
  destruct (request_with_token w self method endpoint data Ht Hs)
    as (r & Hrun & _).
  exists r. rewrite Hrun. split; [reflexivity|].
  intros resp Hsend Hok. unfold outcome. cbn [snd].
  rewrite Hsend. cbn [bind].
  now rewrite (raise_for_status_passes resp Hok).
Qed.

Lemma response_is_parsed_witness :
  outcome (LndClient._request (node_world (Return []) (Return info))
             Examples.client "GET" "/v1/getinfo" JNull) =
  Return (JDict [("alias", JStr "bob")]).
Proof.
  destruct (response_is_parsed (node_world (Return []) (Return info))
              Examples.client "GET" "/v1/getinfo" JNull eq_refl eq_refl)
    as (r & _ & H).
  apply (H info); [reflexivity | simpl; lia].
Defined.

(** X3. What goes on the wire. A request that [_request] sends has the
    method asked for, the URL [rest_host + endpoint], certificate
    verification switched off and the token of the client, which is not
    empty, in the header [Grpc-Metadata-macaroon]; it has a body, the
    JSON text of [data], and a JSON content type exactly when the
    method is POST. *)
Theorem sent_request_shape (w : world) (self : LndClient.LNDClient)
  (method endpoint : string) (data : json) (r : http_request) :
  In (Http r) (trace (LndClient._request w self method endpoint data)) ->
  req_method r = method /\
  req_url r = LndClient.rest_host self ++ endpoint /\
  req_verify r = false /\
  (exists m, LndClient.macaroon self = Some m /\ m <> "" /\
             In ("Grpc-Metadata-macaroon", m) (req_headers r)) /\
  req_data r = (if String.eqb method "POST"
                then Some (LndClient.dumps data) else None) /\
  (In ("Content-Type", "application/json") (req_headers r) <->
   method = "POST").
Proof.
  intros Hin.
  destruct (truthy_str (LndClient.macaroon self)) eqn:Ht.
  2:{ rewrite (request_without_token w self _ _ _ Ht) in Hin.
      destruct Hin. }
  destruct (supported method) eqn:Hs.
  2:{ rewrite (request_unsupported w self _ _ _ Ht Hs) in Hin.
      destruct Hin. }
  destruct (request_with_token w self method endpoint data Ht Hs)
    as (r' & Hrun & Hm & Hu & Hv & Hh & Hd).
  rewrite Hrun in Hin. destruct Hin as [Hin | []].
  injection Hin as <-.
  repeat split; auto.
  - destruct (LndClient.macaroon self) as [m|]; [|discriminate].
    exists m. split; [reflexivity|]. split.
    + intros ->. discriminate.
    + rewrite Hh. left. unfold or_else. now rewrite Ht.
  - rewrite Hh. intros [H | H]; [discriminate|].
    destruct (String.eqb method "POST") eqn:Ep;
      [now apply String.eqb_eq | destruct H].
  - intros ->. rewrite Hh. right. now left.
Qed.

Lemma sent_request_shape_witness :
  req_url {| req_method := "GET";
             req_url := "https://localhost:8082/v1/getinfo";
             req_headers := [("Grpc-Metadata-macaroon", "0201036c6e64")];
             req_data := None; req_verify := false |}
  = "https://localhost:8082" ++ "/v1/getinfo".
Proof.
  apply (sent_request_shape (node_world (Return []) (Return info))
           Examples.client "GET" "/v1/getinfo" JNull).
  left. reflexivity.
Defined.

(** X4. No retry and no other effect: a call of [_request] causes no
    event at all or exactly one HTTP exchange, never a file access; and
    when the exchange itself fails, that failure is the outcome of the
    call. *)
Theorem one_exchange_at_most (w : world) (self : LndClient.LNDClient)
  (method endpoint : string) (data : json) :
  (trace (LndClient._request w self method endpoint data) = [] \/
   exists r,
     trace (LndClient._request w self method endpoint data) = [Http r]) /\
  (forall r e,
      trace (LndClient._request w self method endpoint data) = [Http r] ->
      send w r = Raise e ->
      outcome (LndClient._request w self method endpoint data) = Raise e).
Proof.
  destruct (truthy_str (LndClient.macaroon self)) eqn:Ht.
  2:{ rewrite (request_without_token w self _ _ _ Ht).
      split; [now left | discriminate]. }
  destruct (supported method) eqn:Hs.
  2:{ rewrite (request_unsupported w self _ _ _ Ht Hs).
      split; [now left | discriminate]. }
  destruct (request_with_token w self method endpoint data Ht Hs)
    as (r' & Hrun & _).
  rewrite Hrun. split; [right; now exists r'|].
  intros r e Hr Hsend. injection Hr as <-.
  unfold outcome. cbn [snd]. now rewrite Hsend.
Qed.

Lemma one_exchange_at_most_witness :
  outcome (LndClient._request
             (node_world (Return []) (Raise RequestException))
             Examples.client "DELETE" "/v1/peers" JNull)
  = Raise RequestException.
Proof.
  apply (proj2 (one_exchange_at_most
                  (node_world (Return []) (Raise RequestException))
                  Examples.client "DELETE" "/v1/peers" JNull)
           {| req_method := "DELETE";
              req_url := "https://localhost:8082/v1/peers";
              req_headers := [("Grpc-Metadata-macaroon", "0201036c6e64")];
              req_data := None; req_verify := false |}
           RequestException eq_refl eq_refl).
Defined.

(** *** Building the client *)

Lemma init_run (w : world) (c : LndClient.constants)
  (lnd_dir rest_host : option string) :
  LndClient.__init__ w c lnd_dir rest_host =
  ([Open (macaroon_path (or_else lnd_dir (LndClient.LND_DIR c)))],
   match read_bytes w (macaroon_path (or_else lnd_dir (LndClient.LND_DIR c)))
   with
   | Return b =>
       Return {| LndClient.lnd_dir := or_else lnd_dir (LndClient.LND_DIR c);
                 LndClient.rest_host :=
                   or_else rest_host (LndClient.REST_HOST c);
                 LndClient.macaroon := Some (LndClient.hex b);
                 LndClient.tls_cert :=
                   join (or_else lnd_dir (LndClient.LND_DIR c))
                     ["tls.cert"] |}
   | Raise e =>
       if is_FileNotFoundError e then
         Return {| LndClient.lnd_dir :=
                     or_else lnd_dir (LndClient.LND_DIR c);
                   LndClient.rest_host :=
                     or_else rest_host (LndClient.REST_HOST c);
                   LndClient.macaroon := None;
                   LndClient.tls_cert :=
                     join (or_else lnd_dir (LndClient.LND_DIR c))
                       ["tls.cert"] |}
       else Raise e
   end).
Proof.
  unfold LndClient.__init__, open_rb_read, macaroon_path.
  destruct (read_bytes w _) as [b|e]; simpl; [reflexivity|].
  now destruct (is_FileNotFoundError e).
Qed.

Lemma length_append (a b : string) :
  String.length (a ++ b) = (String.length a + String.length b)%nat.
Proof. induction a as [|x a IH]; simpl; [reflexivity | now rewrite IH]. Qed.

Lemma hex_cons (x : Byte.byte) (b : list Byte.byte) :
  LndClient.hex (x :: b) = hex2 (Byte.to_N x) ++ LndClient.hex b.
Proof.
  unfold LndClient.hex. destruct b as [|y b]; reflexivity.
Qed.

Lemma hex_length (b : list Byte.byte) :
  String.length (LndClient.hex b) = (2 * List.length b)%nat.
Proof.
  induction b as [|x b IH]; [reflexivity|].
  rewrite hex_cons, length_append, IH. simpl. lia.
Qed.

(** X5. An empty token file counts as no token. Building the client
    succeeds, with the empty text as token, and every request then
    fails like with a missing file: a [ConnectionError] naming the
    directory, nothing sent. *)
Theorem empty_token_file (w : world) (c : LndClient.constants)
  (lnd_dir rest_host : option string) :
  read_bytes w (macaroon_path (or_else lnd_dir (LndClient.LND_DIR c)))
  = Return [] ->
  exists self,
    outcome (LndClient.__init__ w c lnd_dir rest_host) = Return self /\
    LndClient.macaroon self = Some "" /\
    forall method endpoint data,
      LndClient._request w self method endpoint data =
      ([], Raise (ConnectionError
                    (not_found_message
                       (or_else lnd_dir (LndClient.LND_DIR c))))).
Proof.
  intros H. rewrite init_run, H. eexists. split; [reflexivity|].
  split; [reflexivity|].
  intros method endpoint data.
  now rewrite request_without_token.
Qed.

Lemma empty_token_file_witness :
  exists self,
    outcome (LndClient.__init__ (node_world (Return []) (Return info))
               Examples.defaults None None) = Return self /\
    LndClient.macaroon self = Some "".
Proof.
  destruct (empty_token_file (node_world (Return []) (Return info))
              Examples.defaults None None eq_refl) as (self & Hi & Hm & _).
  now exists self.
Defined.

(** X6. A token file with content makes a working client. Building it
    opens the token file and nothing else; the token is the
    hexadecimal text of the content, two characters a byte; and every
    call of a supported method sends one request, with that text in the
    header [Grpc-Metadata-macaroon]. *)
Theorem token_loaded (w : world) (c : LndClient.constants)
  (lnd_dir rest_host : option string) (x : Byte.byte)
  (b : list Byte.byte) :
  read_bytes w (macaroon_path (or_else lnd_dir (LndClient.LND_DIR c)))
  = Return (x :: b) ->
  exists self,
    LndClient.__init__ w c lnd_dir rest_host =
    ([Open (macaroon_path (or_else lnd_dir (LndClient.LND_DIR c)))],
     Return self) /\
    LndClient.macaroon self = Some (LndClient.hex (x :: b)) /\
    String.length (LndClient.hex (x :: b))
    = (2 * List.length (x :: b))%nat /\
    forall method endpoint data,
      supported method = true ->
      exists r,
        trace (LndClient._request w self method endpoint data) = [Http r] /\
        In ("Grpc-Metadata-macaroon", LndClient.hex (x :: b))
          (req_headers r).
Proof.
  intros H. rewrite init_run, H. eexists. split; [reflexivity|].
  split; [reflexivity|]. split; [apply hex_length|].
  intros method endpoint data Hs.
  assert (Ht : truthy_str (Some (LndClient.hex (x :: b))) = true).
  { rewrite hex_cons. reflexivity. }
  match goal with
  | |- context [LndClient._request w ?self _ _ _] =>
      destruct (request_with_token w self method endpoint data Ht Hs)
        as (r & Hrun & _ & _ & _ & Hh & _)
  end.
  exists r. rewrite Hrun. split; [reflexivity|].
  rewrite Hh. left. cbn [LndClient.macaroon]. unfold or_else.
  now rewrite Ht.
Qed.

Lemma token_loaded_witness :
  exists self,
    LndClient.__init__
      (node_world (Return [Byte.x02; Byte.x01; Byte.xff]) (Return info))
      Examples.defaults (Some "/srv/polar/1/volumes/lnd/bob") None =
    ([Open "/srv/polar/1/volumes/lnd/bob/data/chain/bitcoin/regtest/admin.macaroon"],
     Return self) /\
    LndClient.macaroon self = Some "0201ff".
Proof.
  destruct (token_loaded
              (node_world (Return [Byte.x02; Byte.x01; Byte.xff])
                 (Return info))
              Examples.defaults (Some "/srv/polar/1/volumes/lnd/bob") None
              Byte.x02 [Byte.x01; Byte.xff] eq_refl)
    as (self & Hi & Hm & _).
  now exists self.
Defined.

(** X7. Only a missing file is forgiven. When opening or reading the
    token file raises anything but [FileNotFoundError] (a permission
    error, a path component that is no directory), building the client
    raises that exception. *)
Theorem init_propagates_other_errors (w : world)
  (c : LndClient.constants) (lnd_dir rest_host : option string)
  (e : exn) :
  read_bytes w (macaroon_path (or_else lnd_dir (LndClient.LND_DIR c)))
  = Raise e ->
  is_FileNotFoundError e = false ->
  LndClient.__init__ w c lnd_dir rest_host =
  ([Open (macaroon_path (or_else lnd_dir (LndClient.LND_DIR c)))],
   Raise e).
Proof. intros H He. now rewrite init_run, H, He. Qed.

Lemma init_propagates_other_errors_witness :
  outcome (LndClient.__init__
             (node_world (Raise NotADirectoryError) (Return info))
             Examples.defaults None None) = Raise NotADirectoryError.
Proof.
  now rewrite (init_propagates_other_errors
                 (node_world (Raise NotADirectoryError) (Return info))
                 Examples.defaults None None NotADirectoryError
                 eq_refl eq_refl).
Defined.

(** *** Importing the client module *)

Lemma or_else_nonempty (v : option string) (default : string) :
  default <> "" -> or_else v default <> "".
Proof.
  intros Hd. destruct v as [s|]; [|exact Hd]. simpl.
  destruct (String.eqb s "") eqn:E; simpl; [exact Hd|].
  now apply String.eqb_neq.
Qed.

Lemma or_else_some (s default : string) :
  s <> "" -> or_else (Some s) default = s.
Proof. intros H. apply String.eqb_neq in H. simpl. now rewrite H. Qed.

Lemma import_constants_run (w : world) :
  LndClient.import_constants w =
  (trace (auto_detect w "bob"),
   match outcome (auto_detect w "bob") with
   | Return detected =>
       Return {| LndClient.LND_DIR :=
                   or_else (fst detected)
                     (expanduser w "~/bootcamp-code/day3/bob");
                 LndClient.REST_HOST :=
                   or_else (snd detected) "https://localhost:8082" |}
   | Raise e => Raise e
   end).
Proof.
  unfold LndClient.import_constants, io_bind, trace, outcome, ret.
  destruct (auto_detect w "bob") as [t [detected|e]]; simpl;
    [|reflexivity].
  now rewrite app_nil_r.
Qed.

(** X8. The module constants are never empty. When the import of
    [lnd_client] succeeds, both the default directory and the default
    host are non-empty texts; and when nothing is detected they are the
    hard-coded fallbacks, the expansion of [~/bootcamp-code/day3/bob]
    and [https://localhost:8082]. *)
Theorem constants_never_empty (w : world) (c : LndClient.constants) :
  outcome (LndClient.import_constants w) = Return c ->
  LndClient.LND_DIR c <> "" /\
  LndClient.REST_HOST c <> "" /\
  (outcome (auto_detect w "bob") = Return (None, None) ->
   c = {| LndClient.LND_DIR := expanduser w "~/bootcamp-code/day3/bob";
          LndClient.REST_HOST := "https://localhost:8082" |}).
Proof.
  rewrite import_constants_run. unfold outcome at 1. cbn [snd].
  destruct (outcome (auto_detect w "bob")) as [detected|e];
    [|discriminate].
  intros H. injection H as <-. cbn [LndClient.LND_DIR LndClient.REST_HOST].
  split; [|split].
  - apply or_else_nonempty, expanduser_nonempty. discriminate.
  - apply or_else_nonempty. discriminate.
  - intros Hd. injection Hd as ->. reflexivity.
Qed.

Lemma constants_never_empty_witness :
  LndClient.LND_DIR
    {| LndClient.LND_DIR := "/home/dev/bootcamp-code/day3/bob";
       LndClient.REST_HOST := "https://localhost:8082" |} <> "".
Proof.
  apply (constants_never_empty Examples.no_file
           {| LndClient.LND_DIR := "/home/dev/bootcamp-code/day3/bob";
              LndClient.REST_HOST := "https://localhost:8082" |} eq_refl).
Defined.

(** X9. A descriptor that is JSON but no object breaks the import.
    Without a full override, when the descriptor file loads to a value
    that is not a JSON object, importing [lnd_client] raises
    [AttributeError], and so does the attempt to get a client. *)
Theorem import_fails_on_non_object (w : world) (data : json) :
  (truthy_str (environ w "LND_DIR")
   && truthy_str (environ w "REST_HOST"))%bool = false ->
  path_exists w (POLAR_NETWORKS_FILE w) = true ->
  load_json w (POLAR_NETWORKS_FILE w) = Return data ->
  is_dict data = false ->
  outcome (LndClient.import_constants w) = Raise AttributeError /\
  outcome (default_client w) = Raise AttributeError.
Proof.
  intros Henv He Hl Hd.
  assert (Ha : outcome (auto_detect w "bob") = Raise AttributeError).
  { rewrite (auto_detect_fallthrough w _ Henv), outcome_descriptor_detection.
    rewrite (find_polar_node_loaded w _ data He Hl).
    unfold outcome, find_in_data. simpl.
    destruct data; try reflexivity; discriminate. }
  assert (Hi : outcome (LndClient.import_constants w) = Raise AttributeError).
  { rewrite import_constants_run. unfold outcome at 1. cbn [snd].
    now rewrite Ha. }
  split; [exact Hi|].
  unfold default_client, io_bind, outcome in *.
  destruct (LndClient.import_constants w) as [t [c|e]]; simpl in *;
    congruence.
Qed.

Lemma import_fails_on_non_object_witness :
  outcome (default_client Examples.list_descriptor) = Raise AttributeError.
Proof.
  apply (import_fails_on_non_object Examples.list_descriptor (JList [])
           eq_refl eq_refl eq_refl eq_refl).
Defined.

(** X10. The resolver feeds the client. Without a full override, when
    [find_polar_node] finds a node for "bob", a client built with no
    argument gets the directory and the URL of that node, and building
    it checks and opens the descriptor file and then opens the token
    file under the node's directory, nothing else. *)
Theorem default_client_uses_detected_node (w : world) (p : polar_node) :
  (truthy_str (environ w "LND_DIR")
   && truthy_str (environ w "REST_HOST"))%bool = false ->
  outcome (find_polar_node w "bob") = Return (Some p) ->
  trace (default_client w) =
    [Exists (POLAR_NETWORKS_FILE w); Open (POLAR_NETWORKS_FILE w);
     Open (macaroon_path (lnd_dir p))] /\
  outcome (default_client w) =
    outcome (LndClient.__init__ w
               {| LndClient.LND_DIR := lnd_dir p;
                  LndClient.REST_HOST := rest_host p |} None None) /\
  (forall self,
      outcome (default_client w) = Return self ->
      LndClient.lnd_dir self = lnd_dir p /\
      LndClient.rest_host self = rest_host p).
Proof.
  intros Henv Hp.
  destruct (find_polar_node_nonempty w "bob" p Hp) as [Hd Hh].
  destruct (find_polar_node_some w "bob" p Hp)
    as (data & _ & _ & _ & He & Hl & _).
  assert (Ha : auto_detect w "bob" =
               ([Exists (POLAR_NETWORKS_FILE w);
                 Open (POLAR_NETWORKS_FILE w)],
                Return (Some (lnd_dir p), Some (rest_host p)))).
  { rewrite (auto_detect_fallthrough w _ Henv).
    unfold descriptor_detection.
    rewrite (find_polar_node_loaded w _ data He Hl) in *.
    unfold outcome in Hp. cbn [snd] in Hp. rewrite Hp. reflexivity. }
  assert (Hc : LndClient.import_constants w =
               ([Exists (POLAR_NETWORKS_FILE w);
                 Open (POLAR_NETWORKS_FILE w)],
                Return {| LndClient.LND_DIR := lnd_dir p;
                          LndClient.REST_HOST := rest_host p |})).
  { rewrite import_constants_run, Ha. unfold trace, outcome. cbn [fst snd].
    now rewrite (or_else_some _ _ Hd), (or_else_some _ _ Hh). }
  unfold default_client. rewrite Hc. cbn [io_bind].
  rewrite init_run. cbn [or_else LndClient.LND_DIR LndClient.REST_HOST].
  unfold trace, outcome. cbn [fst snd app].
  split; [reflexivity|]. split; [reflexivity|].
  intros self.
  destruct (read_bytes w (macaroon_path (lnd_dir p))) as [b|e].
  - intros H. injection H as <-. split; reflexivity.
  - destruct (is_FileNotFoundError e); [|discriminate].
    intros H. injection H as <-. split; reflexivity.
Qed.

Lemma default_client_uses_detected_node_witness :
  trace (default_client Examples.two_networks) =
  [Exists "/home/dev/.polar/networks/networks.json";
   Open "/home/dev/.polar/networks/networks.json";
   Open "/srv/polar/1/volumes/lnd/bob/data/chain/bitcoin/regtest/admin.macaroon"].
Proof.
  apply (default_client_uses_detected_node Examples.two_networks
           {| name := "bob"; lnd_dir := "/srv/polar/1/volumes/lnd/bob";
              rest_host := "https://127.0.0.1:8081";
              rest_port := JInt 8081; network_name := JStr "regtest" |}
           eq_refl eq_refl).
Defined.

(** ** Further properties of the resolver *)

(** X11. Only I/O and JSON decoding errors are absorbed. Without a full
    override, when loading the descriptor file raises an exception of
    another class (undecodable text, a nesting too deep), [auto_detect]
    raises that exception, after having checked and opened the file. *)
Theorem unhandled_load_error_propagates (w : world) (n : string)
  (e : exn) :
  (truthy_str (environ w "LND_DIR")
   && truthy_str (environ w "REST_HOST"))%bool = false ->
  path_exists w (POLAR_NETWORKS_FILE w) = true ->
  load_json w (POLAR_NETWORKS_FILE w) = Raise e ->
  (is_JSONDecodeError e || is_OSError e)%bool = false ->
  auto_detect w n =
  ([Exists (POLAR_NETWORKS_FILE w); Open (POLAR_NETWORKS_FILE w)], Raise e).
Proof.
  intros Henv He Hl Hc.
  rewrite (auto_detect_fallthrough w n Henv). unfold descriptor_detection.
  now rewrite (find_polar_node_failed w n e He Hl), Hc.
Qed.

Lemma unhandled_load_error_propagates_witness :
  outcome (auto_detect undecodable "bob") = Raise UnicodeDecodeError.
Proof.
  now rewrite (unhandled_load_error_propagates undecodable "bob"
                 UnicodeDecodeError eq_refl eq_refl eq_refl eq_refl).
Defined.

(** X12. The trace of [auto_detect] is fixed by the override and by
    the presence of the descriptor file: nothing with a full override;
    else the existence check, followed by the opening of the file only
    when the check succeeded. It never opens another file and never
    sends a request. *)
Theorem auto_detect_trace (w : world) (n : string) :
  trace (auto_detect w n) =
  if (truthy_str (environ w "LND_DIR")
      && truthy_str (environ w "REST_HOST"))%bool then []
  else if path_exists w (POLAR_NETWORKS_FILE w)
       then [Exists (POLAR_NETWORKS_FILE w); Open (POLAR_NETWORKS_FILE w)]
       else [Exists (POLAR_NETWORKS_FILE w)].
Proof.
  destruct (truthy_str (environ w "LND_DIR")
            && truthy_str (environ w "REST_HOST"))%bool eqn:Henv.
  { unfold auto_detect. now rewrite Henv. }
  rewrite (auto_detect_fallthrough w n Henv). unfold descriptor_detection.
  destruct (path_exists w (POLAR_NETWORKS_FILE w)) eqn:He.
  - destruct (load_json w (POLAR_NETWORKS_FILE w)) as [data|e] eqn:Hl.
    + rewrite (find_polar_node_loaded w n data He Hl).
      now destruct (find_in_data w n data) as [[p|]|].
    + rewrite (find_polar_node_failed w n e He Hl).
      now destruct (is_JSONDecodeError e || is_OSError e)%bool.
  - now rewrite (find_polar_node_missing w n He).
Qed.

(** X13. Both or neither. A pair that [auto_detect] returns has either
    no directory and no URL, or a directory and a URL that are both
    non-empty texts: it never returns one without the other. *)
Theorem both_or_neither (w : world) (n : string)
  (d h : option string) :
  outcome (auto_detect w n) = Return (d, h) ->
  (d = None /\ h = None) \/
  (exists d' h', d = Some d' /\ h = Some h' /\ d' <> "" /\ h' <> "").
Proof.
  destruct (truthy_str (environ w "LND_DIR")
            && truthy_str (environ w "REST_HOST"))%bool eqn:Henv.
  - unfold auto_detect. rewrite Henv.
    apply andb_true_iff in Henv. destruct Henv as [Hd Hh].
    destruct (environ w "LND_DIR") as [d0|]; [|discriminate].
    destruct (environ w "REST_HOST") as [h0|]; [|discriminate].
    simpl in Hd, Hh. apply negb_true_iff in Hd, Hh.
    apply String.eqb_neq in Hd, Hh.
    intros H. injection H as <- <-. right.
    exists (expanduser w d0), h0. repeat split; auto.
    now apply expanduser_nonempty.
  - rewrite (auto_detect_fallthrough w n Henv), outcome_descriptor_detection.
    destruct (outcome (find_polar_node w n)) as [[p|]|e] eqn:Ep;
      [| |discriminate].
    + destruct (find_polar_node_nonempty w n p Ep) as [Hd Hh].
      intros H. injection H as <- <-. right.
      now exists (lnd_dir p), (rest_host p).
    + intros H. injection H as <- <-. now left.
Qed.

Lemma both_or_neither_witness :
  (Some "/srv/polar/1/volumes/lnd/bob" = None
   /\ Some "https://127.0.0.1:8081" = None) \/
  (exists d' h',
      Some "/srv/polar/1/volumes/lnd/bob" = Some d' /\
      Some "https://127.0.0.1:8081" = Some h' /\ d' <> "" /\ h' <> "").
Proof.
  apply (both_or_neither Examples.two_networks "bob"). reflexivity.
Defined.

(** *** Networks without a match *)

Lemma scan_network_no_match (w : world) (n : string) (net : json) :
  network_ok net = true -> has_match n net = false ->
  scan_network w n net = Return None.
Proof.
  intros Hok Hm.
  destruct (network_ok_inv net Hok) as (dn & l & -> & _ & _ & Hl & Hf).
  unfold has_match in Hm. rewrite Hl in Hm.
  rewrite scan_network_eq, Hl. cbn [bind].
  apply scan_nodes_pass.
  rewrite forallb_forall in Hf. apply Forall_forall. intros x Hx.
  split; [now apply Hf|].
  destruct (matches n x) eqn:E; [|reflexivity].
  assert (existsb (matches n) l = true)
    by (apply existsb_exists; now exists x).
  congruence.
Qed.

Lemma scan_networks_no_match (w : world) (n : string) (nets : list json) :
  Forall (fun x => network_ok x = true /\ has_match n x = false) nets ->
  scan_networks w n nets = Return None.
Proof.
  induction 1 as [|net nets [Hok Hm] _ IH]; [reflexivity|].
  simpl. now rewrite (scan_network_no_match w n net Hok Hm).
Qed.

(** X14. No match, nothing detected. Without a full override, for a
    descriptor of the expected shape in which no lightning-node entry
    of any network matches the requested name (an entry of another
    implementation does not match, whatever its name), [auto_detect]
    returns (absent, absent). *)
Theorem no_match_gives_none (w : world) (n : string) (data : json)
  (items : list json) :
  (truthy_str (environ w "LND_DIR")
   && truthy_str (environ w "REST_HOST"))%bool = false ->
  path_exists w (POLAR_NETWORKS_FILE w) = true ->
  load_json w (POLAR_NETWORKS_FILE w) = Return data ->
  get data "networks" (JList []) = Return (JList items) ->
  forallb network_ok items = true ->
  forallb (fun net => negb (has_match n net)) items = true ->
  outcome (auto_detect w n) = Return (None, None).
Proof.
  intros Henv He Hl Hg Hok Hno.
  rewrite (auto_detect_fallthrough w n Henv), outcome_descriptor_detection.
  rewrite (find_polar_node_loaded w n data He Hl). unfold outcome. cbn [snd].
  unfold find_in_data. rewrite Hg. cbn [bind].
  destruct items as [|x items]; [reflexivity|].
  cbn [truthy negb iter bind].
  rewrite forallb_forall in Hok, Hno.
  assert (Hk : Forall (fun y => exists k, sort_key y = Return k) (x :: items)).
  { apply Forall_forall. intros y Hy.
    destruct (network_ok_inv y (Hok y Hy)) as (_ & _ & _ & [i Hi] & _).
    now apply (sort_key_total y i). }
  destruct (decorate_total sort_key _ Hk) as [ks Hks].
  assert (Hs : sorted_reverse sort_key (x :: items)
               = Return (map snd (sort_desc ks)))
    by (unfold sorted_reverse; now rewrite Hks).
  rewrite Hs. cbn [bind].
  rewrite scan_networks_no_match; [reflexivity|].
  destruct (sorted_reverse_spec sort_key _ _ Hs) as [Hperm _].
  apply (Permutation_Forall Hperm). apply Forall_forall. intros y Hy.
  split; [now apply Hok|].
  specialize (Hno y Hy). now apply negb_true_iff in Hno.
Qed.

Lemma no_match_gives_none_witness :
  outcome (auto_detect other_implementation "bob") = Return (None, None).
Proof.
  eapply (no_match_gives_none other_implementation "bob");
    reflexivity.
Defined.

(** *** Ties and file order *)

Lemma keys_of_considered_before (a b : json) (ka kb : Z * Z) :
  considered_before a b ->
  sort_key a = Return ka -> sort_key b = Return kb ->
  key_lt ka kb = false.
Proof.
  intros (ia & ib & Ha & Hb & Hor). rewrite !sort_key_eq, Ha, Hb.
  cbn [bind]. intros E1 E2. injection E1 as <-. injection E2 as <-.
  apply key_lt_false. cbn [fst snd].
  destruct Hor as [[-> ->] | [-> Hle]]; [lia|].
  right. split; [reflexivity | exact Hle].
Qed.

Lemma sort_desc_fixed {A : Type} (l : list ((Z * Z) * A)) :
  StronglySorted not_below l -> sort_desc l = l.
Proof.
  induction 1 as [|[k x] l Hs IH Hall]; [reflexivity|].
  cbn [sort_desc fold_right fst snd]. fold (sort_desc l). rewrite IH.
  destruct l as [|[k' y] l]; [reflexivity|].
  cbn [insert_desc]. inversion Hall as [|? ? Hky _]; subst.
  unfold not_below in Hky. cbn [fst] in Hky. now rewrite Hky.
Qed.

Lemma decorated_sorted (ks : list ((Z * Z) * json)) :
  Forall (fun kx => sort_key (snd kx) = Return (fst kx)) ks ->
  StronglySorted considered_before (map snd ks) ->
  StronglySorted not_below ks.
Proof.
  induction ks as [|kx ks IH]; [constructor|].
  intros Hf Hs. inversion Hf as [|? ? Hkx Hf']; subst.
  cbn [map] in Hs. inversion Hs as [|? ? Hs' Hall]; subst.
  constructor; [now apply IH|].
  rewrite Forall_forall in *. intros ky Hy.
  unfold not_below.
  apply (keys_of_considered_before (snd kx) (snd ky)); auto.
  apply Hall. now apply in_map.
Qed.

(** A list that is in the selection order already is left as it
    is. *)
Lemma sorted_reverse_keeps_order (items : list json) :
  Forall (fun x => exists i, numeric_id x = Return i) items ->
  StronglySorted considered_before items ->
  sorted_reverse sort_key items = Return items.
Proof.
  intros Hnum Hs.
  assert (Hk : Forall (fun x => exists k, sort_key x = Return k) items).
  { eapply Forall_impl; [|exact Hnum].
    intros x [i Hx]. now apply (sort_key_total x i). }
  destruct (decorate_total sort_key items Hk) as [ks Hks].
  destruct (decorate_spec sort_key items ks Hks) as [Hm Hf].
  unfold sorted_reverse. rewrite Hks. cbn [bind].
  rewrite sort_desc_fixed; [now rewrite Hm|].
  apply decorated_sorted; [exact Hf | now rewrite Hm].
Qed.

(** X15. File order breaks ties. Of two networks with the same status
    and the same identifier that both hold a matching node, the one
    that comes first in the file is scanned first (the sort is stable,
    also in reverse), and the node returned is the one of its first
    matching entry. *)
Theorem ties_keep_file_order (w : world) (n : string) (data n2 : json)
  (d1 dnode : list (string * json)) (i : Z) (nm : string) :
  path_exists w (POLAR_NETWORKS_FILE w) = true ->
  load_json w (POLAR_NETWORKS_FILE w) = Return data ->
  get data "networks" (JList []) = Return (JList [JDict d1; n2]) ->
  network_ok (JDict d1) = true ->
  numeric_id (JDict d1) = Return i -> numeric_id n2 = Return i ->
  started (JDict d1) = started n2 ->
  first_entry n (JDict d1) dnode nm ->
  contains_match n n2 ->
  outcome (find_polar_node w n) =
  Return (Some (expected_node w d1 dnode nm)).
Proof.
  intros He Hl Hg Hok H1 H2 Hst Hfirst _.
  rewrite (find_polar_node_loaded w n data He Hl). unfold outcome. cbn [snd].
  rewrite (find_in_data_scan w n data (JList [JDict d1; n2])
             [JDict d1; n2] [JDict d1; n2] Hg eq_refl eq_refl).
  - cbn [scan_networks].
    now rewrite (scan_network_expected w n d1 dnode nm Hok Hfirst).
  - apply sorted_reverse_keeps_order.
    + repeat constructor; now exists i.
    + repeat constructor.
      exists i, i. repeat split; auto. right. split; [exact Hst | lia].
Qed.

Lemma ties_keep_file_order_witness :
  outcome (find_polar_node twins "bob") =
  Return (Some {| name := "bob"; lnd_dir := "/srv/polar/a/volumes/lnd/bob";
                  rest_host := "https://127.0.0.1:8084";
                  rest_port := JInt 8084;
                  network_name := JStr "regtest" |}).
Proof.
  apply (ties_keep_file_order twins "bob"
           (Examples.descriptor [twin_a; twin_b]) twin_b
           [("id", JInt 4); ("name", JStr "regtest");
            ("status", JStr "Started"); ("path", JStr "/srv/polar/a");
            ("nodes",
             JDict [("lightning", JList [Examples.lnd_node "bob" 8084])])]
           [("implementation", JStr "LND"); ("name", JStr "bob");
            ("ports", JDict [("rest", JInt 8084)])]
           4 "bob" eq_refl eq_refl eq_refl eq_refl eq_refl eq_refl eq_refl).
  - exists [], []. repeat split. constructor.
  - exists [Examples.lnd_node "bob" 8085], (Examples.lnd_node "bob" 8085).
    repeat split. now left.
Defined.

(** *** One bad network *)

Lemma decorate_raise {A : Type} (key : A -> result (Z * Z))
  (pre post : list A) (bad : A) (e : exn) :
  Forall (fun x => exists k, key x = Return k) pre ->
  key bad = Raise e ->
  decorate key (pre ++ bad :: post)%list = Raise e.
Proof.
  intros Hpre Hbad. unfold decorate.
  induction Hpre as [|x pre [k Hk] _ IH]; simpl.
  - now rewrite Hbad.
  - rewrite Hk. cbn [bind]. now rewrite IH.
Qed.

(** X16. The keys of all networks are computed before any network is
    scanned. When some network has an identifier that [int()] refuses
    (or is no JSON object), and the networks before it in the file have
    numeric identifiers, [find_polar_node] raises the exception of that
    network, whatever the networks hold and whether or not another
    network has a matching node. *)
Theorem bad_network_breaks_resolution (w : world) (n : string)
  (data bad : json) (pre post : list json) (e : exn) :
  path_exists w (POLAR_NETWORKS_FILE w) = true ->
  load_json w (POLAR_NETWORKS_FILE w) = Return data ->
  get data "networks" (JList [])
  = Return (JList (pre ++ bad :: post)%list) ->
  Forall (fun x => exists i, numeric_id x = Return i) pre ->
  numeric_id bad = Raise e ->
  outcome (find_polar_node w n) = Raise e.
Proof.
  intros He Hl Hg Hpre Hbad.
  rewrite (find_polar_node_loaded w n data He Hl). unfold outcome. cbn [snd].
  unfold find_in_data. rewrite Hg. cbn [bind].
  assert (Ht : truthy (JList (pre ++ bad :: post)%list) = true)
    by (now destruct pre).
  rewrite Ht. cbn [negb iter bind]. unfold sorted_reverse.
  rewrite (decorate_raise sort_key pre post bad e); [reflexivity | |].
  - eapply Forall_impl; [|exact Hpre].
    intros x [i Hx]. now apply (sort_key_total x i).
  - now rewrite sort_key_eq, Hbad.
Qed.

Lemma bad_network_breaks_resolution_witness :
  outcome (find_polar_node one_bad_id "bob") =
  Raise (ValueError "invalid literal for int() with base 10: 'staging'").
Proof.
  apply (bad_network_breaks_resolution one_bad_id "bob"
           (Examples.descriptor [Examples.started1; unnumbered])
           unnumbered [Examples.started1] []
           _ eq_refl eq_refl eq_refl).
  - repeat constructor. now exists 1.
  - reflexivity.
Defined.

(** *** What lies behind the first match *)

Lemma scan_nodes_some_app (w : world) (n : string) (net : json)
  (l post : list json) (p : polar_node) :
  scan_nodes w n net l = Return (Some p) ->
  scan_nodes w n net (l ++ post)%list = Return (Some p).
Proof.
  induction l as [|node l IH]; [discriminate|].
  simpl.
  destruct (get node "implementation" (JStr "")) as [i|]; simpl;
    [|discriminate].
  destruct (get node "name" (JStr "")) as [m|]; simpl; [|discriminate].
  destruct (upper_of i) as [u|]; simpl; [|discriminate].
  destruct (negb (String.eqb u "LND")); [exact IH|].
  destruct (lower_of m) as [lo|]; simpl; [|discriminate].
  destruct (negb (String.eqb lo (lower n))); [exact IH|].
  auto.
Qed.

Lemma scan_networks_some_app (w : world) (n : string)
  (nets post : list json) (p : polar_node) :
  scan_networks w n nets = Return (Some p) ->
  scan_networks w n (nets ++ post)%list = Return (Some p).
Proof.
  induction nets as [|net nets IH]; [discriminate|].
  simpl. destruct (scan_network w n net) as [[q|]|e]; simpl; auto.
Qed.

(** X17. The scan stops at the first match. Once an entry matches,
    neither the entries behind it in its network nor the networks
    behind its network in the selection order are looked at: the
    result is the same whatever follows, entries of a wrong shape
    included. *)
Theorem scan_stops_at_first_match (w : world) (n : string)
  (net : json) (l post : list json) (nets later : list json)
  (p : polar_node) :
  lightning_nodes net = Return (l ++ post)%list ->
  scan_nodes w n net l = Return (Some p) ->
  scan_network w n net = Return (Some p) /\
  (forall before,
      Forall (fun x => scan_network w n x = Return None) before ->
      scan_networks w n (before ++ net :: later)%list = Return (Some p)).
Proof.
  intros Hl Hs.
  assert (Hnet : scan_network w n net = Return (Some p)).
  { rewrite scan_network_eq, Hl. cbn [bind].
    now apply scan_nodes_some_app. }
  split; [exact Hnet|].
  intros before Hb. induction Hb as [|x before Hx _ IH]; simpl.
  - now rewrite Hnet.
  - now rewrite Hx.
Qed.

Lemma scan_stops_at_first_match_witness :
  scan_network Examples.two_networks "bob"
    (Examples.network 1 "Started" "/srv/polar/1"
       [Examples.lnd_node "bob" 8081; JNull; JInt 5]) =
  Return (Some {| name := "bob"; lnd_dir := "/srv/polar/1/volumes/lnd/bob";
                  rest_host := "https://127.0.0.1:8081";
                  rest_port := JInt 8081;
                  network_name := JStr "regtest" |}).
Proof.
  apply (scan_stops_at_first_match Examples.two_networks "bob"
           (Examples.network 1 "Started" "/srv/polar/1"
              [Examples.lnd_node "bob" 8081; JNull; JInt 5])
           [Examples.lnd_node "bob" 8081] [JNull; JInt 5] [] []
           _ eq_refl eq_refl).
Defined.

(** ** The endpoint wrappers *)

Lemma request_sends (w : world) (self : LndClient.LNDClient)
  (method endpoint : string) (data : json) :
  truthy_str (LndClient.macaroon self) = true ->
  supported method = true ->
  sends (LndClient._request w self method endpoint data) method
    (LndClient.rest_host self ++ endpoint)
    (if String.eqb method "POST" then Some (LndClient.dumps data) else None).
Proof.
  intros Ht Hs.
  destruct (request_with_token w self method endpoint data Ht Hs)
    as (r & Hrun & Hm & Hu & Hv & _ & Hd).
  exists r. rewrite Hrun. repeat split; assumption.
Qed.

(** X18. Every wrapper is one request to its endpoint. With a token
    loaded, each of the ten wrappers sends exactly one request: a GET
    without body to its path under the host of the client, a path
    parameter being appended as it is, not escaped; [add_invoice] alone
    sends a POST, whose body is the JSON object with the amount as a
    decimal text under "value" and the memo under "memo". None of them
    can run into the unsupported-method error. *)
Theorem wrappers_send_one_request (w : world)
  (self : LndClient.LNDClient) (amount : Z)
  (memo r_hash_str pay_req : string) :
  truthy_str (LndClient.macaroon self) = true ->
  let host := LndClient.rest_host self in
  sends (LndClient.get_info w self) "GET" (host ++ "/v1/getinfo") None /\
  sends (LndClient.channel_balance w self) "GET"
    (host ++ "/v1/balance/channels") None /\
  sends (LndClient.wallet_balance w self) "GET"
    (host ++ "/v1/balance/blockchain") None /\
  sends (LndClient.add_invoice w self amount memo) "POST"
    (host ++ "/v1/invoices")
    (Some (LndClient.dumps
             (JDict [("value", JStr (str_of_int amount));
                     ("memo", JStr memo)]))) /\
  sends (LndClient.lookup_invoice w self r_hash_str) "GET"
    (host ++ "/v1/invoice/" ++ r_hash_str) None /\
  sends (LndClient.list_invoices w self) "GET" (host ++ "/v1/invoices")
    None /\
  sends (LndClient.list_payments w self) "GET" (host ++ "/v1/payments")
    None /\
  sends (LndClient.decode_pay_req w self pay_req) "GET"
    (host ++ "/v1/payreq/" ++ pay_req) None /\
  sends (LndClient.list_channels w self) "GET" (host ++ "/v1/channels")
    None /\
  sends (LndClient.list_peers w self) "GET" (host ++ "/v1/peers") None.
Proof.
  intros Ht host. subst host.
  repeat split;
    first [ apply (request_sends w self "GET" _ JNull Ht eq_refl)
          | apply (request_sends w self "POST" _ _ Ht eq_refl) ].
Qed.

Lemma wrappers_send_one_request_witness :
  sends (LndClient.add_invoice (node_world (Return []) (Return info))
           Examples.client 50000 "Coffee")
    "POST" "https://localhost:8082/v1/invoices"
    (Some (LndClient.dumps
             (JDict [("value", JStr "50000"); ("memo", JStr "Coffee")]))).
Proof.
  apply (wrappers_send_one_request (node_world (Return []) (Return info))
           Examples.client 50000 "Coffee" "" "" eq_refl).
Defined.
